(** * acoss.extractors: the batch feature-extraction pipeline

    A shallow embedding of [src/acoss/extractors.py]: the default
    [PROFILE], the single-file extractor [compute_features], the
    list-driven runner [compute_features_from_list_file] and the
    directory orchestrator [batch_feature_extractor].

    The signal-processing collaborator ([acoss.features.AudioFeatures]),
    the helpers of [acoss.utils], the operating system and the libraries
    [deepdish], [progress] and [joblib] are not part of the module: they
    are the variables of the sections below, so every statement holds for
    any behaviour of theirs. *)

From Stdlib Require Import ZArith QArith Qround Lia Ascii.
From Stdlib Require Floats.SpecFloat.
From stdpp Require Import gmap strings list.

Local Open Scope Z_scope.
Set Warnings "-clear-no-such-hyp".

(** ** Python strings *)

Module PyStr.

Definition slash : ascii := "/"%char.
Definition newline : string := String (ascii_of_nat 10) EmptyString.

(** [s.split('/')]: the pieces between the separators; never empty. *)
Fixpoint split (s : string) : list string :=
  match s with
  | EmptyString => [EmptyString]
  | String c s' =>
      if Ascii.eqb c slash then EmptyString :: split s'
      else match split s' with
           | [] => [String c EmptyString]
           | p :: ps => String c p :: ps
           end
  end.

(** [l[-k]] for [k >= 1]: [None] stands for Python's [IndexError]. *)
Definition index_from_end {A} (l : list A) (k : nat) : option A :=
  match k with
  | O => None
  | S k' => rev l !! k'
  end.

(** ['/' in s] *)
Fixpoint contains_slash (s : string) : bool :=
  match s with
  | EmptyString => false
  | String c s' => Ascii.eqb c slash || contains_slash s'
  end.

(** [os.path.basename(p)] of posixpath: [p[p.rfind('/') + 1:]]. *)
Fixpoint basename (p : string) : string :=
  match p with
  | EmptyString => EmptyString
  | String c p' =>
      if Ascii.eqb c slash then basename p'
      else if contains_slash p' then basename p'
      else p
  end.

Fixpoint startswith (s pre : string) : bool :=
  match pre, s with
  | EmptyString, _ => true
  | String _ _, EmptyString => false
  | String a pre', String b s' => Ascii.eqb a b && startswith s' pre'
  end.

Fixpoint drop (n : nat) (s : string) : string :=
  match n, s with
  | O, _ => s
  | S _, EmptyString => EmptyString
  | S n', String _ s' => drop n' s'
  end.

(** [s.endswith(suf)] *)
Definition endswith (s suf : string) : bool :=
  (String.length suf <=? String.length s)%nat
  && String.eqb (drop (String.length s - String.length suf) s) suf.

(** The scan of [s.replace(old, new)] for a non-empty [old]: left to
    right, occurrences do not overlap.  [skip] counts the characters of
    the occurrence just found that are still to be dropped. *)
Fixpoint replace_scan (old new : string) (skip : nat) (s : string) : string :=
  match s with
  | EmptyString => EmptyString
  | String c s' =>
      match skip with
      | S k => replace_scan old new k s'
      | O =>
          if startswith s old
          then new +:+ replace_scan old new (String.length old - 1) s'
          else String c (replace_scan old new O s')
      end
  end.

(** With an empty [old] Python puts [new] before every character and at
    the end. *)
Fixpoint replace_empty (new : string) (s : string) : string :=
  match s with
  | EmptyString => new
  | String c s' => new +:+ String c (replace_empty new s')
  end.

Definition replace (s old new : string) : string :=
  match old with
  | EmptyString => replace_empty new s
  | String _ _ => replace_scan old new O s
  end.

(** [os.path.join(a, b)] of posixpath, two arguments. *)
Definition join (a b : string) : string :=
  if startswith b "/" then b
  else if String.eqb a "" || endswith a "/" then a +:+ b
  else a +:+ "/" +:+ b.

End PyStr.

(** ** Values, exceptions and the profile *)

(** The exceptions the module raises itself, and [External] for whatever a
    collaborator, the operating system or a library raises. *)
Inductive exn : Type :=
| IOError (msg : string)
| IndexError
| ZeroDivisionError
| OverflowError
| AttributeError (name : string)
| External (what : string).

(** The extractor profile: the dictionary [PROFILE] has exactly these keys. *)
Record Profile : Type := mkProfile {
  sample_rate : Z;
  input_audio_format : string;
  downsample_audio : bool;
  downsample_factor : Z;
  endtime : option Q;
  features : list string
}.

Definition PROFILE : Profile := {|
  sample_rate := 44100;
  input_audio_format := ".mp3";
  downsample_audio := false;
  downsample_factor := 2;
  endtime := None;
  features := ["hpcp"; "key_extractor"; "madmom_features"; "mfcc_htk"]
|}.

(** Truth value of [params['endtime']]: [None] and zero are false. *)
Definition truthy_endtime (e : option Q) : bool :=
  match e with
  | None => false
  | Some t => negb (Qeq_bool t 0)
  end.

(** A Python float is an IEEE 754 binary64 number. *)
Definition pyfloat : Type := SpecFloat.spec_float.

(** A Python integer as an operand of a float operation: the integer
    itself, whatever its size, not yet rounded. *)
Definition int_operand (a : Z) : pyfloat :=
  match a with
  | Z0 => SpecFloat.S754_zero false
  | Zpos p => SpecFloat.S754_finite false p 0
  | Zneg p => SpecFloat.S754_finite true p 0
  end.

(** [a / b] on Python integers: true division.  A zero divisor raises;
    otherwise the exact quotient is rounded once to the nearest binary64
    number, ties to even, and a quotient too large for a float raises
    [OverflowError]. *)
Definition truediv (a b : Z) : exn + pyfloat :=
  if b =? 0 then inl ZeroDivisionError
  else match SpecFloat.SFdiv 53 1024 (int_operand a) (int_operand b) with
       | SpecFloat.S754_infinity _ => inl OverflowError
       | q => inr q
       end.

(** What the logger is handed.  The only message that formats a number is
    the closing one; its number is kept as such. *)
Inductive LogMsg : Type :=
| Text (s : string)
| ProcessFinished (seconds : Q).

Inductive LogLevel : Type := INFO | DEBUG.

(** What a key of the output dictionary holds. *)
Inductive pyval (value : Type) : Type :=
| VFeat (v : value)
| VStr (s : string).
Arguments VFeat {value} v.
Arguments VStr {value} s.

(** The feature object: [AudioFeatures(audio_file, sample_rate)] with the
    decoded signal in [audio_vector]. *)
Record AudioFeatures (sample : Type) : Type := mkAudioFeatures {
  audio_file : string;
  fs : Z;
  audio_vector : list sample
}.
Arguments mkAudioFeatures {sample} _ _ _.
Arguments audio_file {sample} _.
Arguments fs {sample} _.
Arguments audio_vector {sample} _.

(** ** The collaborators *)

(** [acoss.features.AudioFeatures]: the constructor decodes the file; the
    two signal operations return a new vector; [capability name] is
    [getattr(feature, name)], absent for an unknown name. *)
Record FeatureLib (FS sample value : Type) : Type := mkFeatureLib {
  decode : FS -> string -> Z -> exn + list sample;
  audio_slicer : AudioFeatures sample -> Q -> exn + list sample;
  resample_audio : AudioFeatures sample -> pyfloat -> exn + list sample;
  capability : string -> option (AudioFeatures sample -> exn + value)
}.
Arguments decode {FS sample value} _ _ _ _.
Arguments audio_slicer {FS sample value} _ _ _.
Arguments resample_audio {FS sample value} _ _ _.
Arguments capability {FS sample value} _ _.

(** The operating system, [acoss.utils.read_txt_file], [deepdish],
    [tempfile] and [glob], all acting on a file-system state [FS], and the
    two clocks: the reading each gives at the n-th time query of the run. *)
Record Platform (FS value : Type) : Type := mkPlatform {
  os_path_exists : FS -> string -> bool;
  os_makedirs : FS -> string -> FS * (exn + unit);
  dd_io_save : FS -> string -> gmap string (pyval value) -> FS * (exn + unit);
  read_txt_file : FS -> string -> exn + list string;
  named_temporary_file : FS -> string -> string -> FS * (exn + string);
  os_walk : FS -> string -> list (string * list string * list string);
  append_text : FS -> string -> list string -> FS * (exn + unit);
  glob_glob : FS -> string -> list string;
  time_monotonic : nat -> Q;
  time_time : nat -> Q
}.
Arguments os_path_exists {FS value} _ _ _.
Arguments os_makedirs {FS value} _ _ _.
Arguments dd_io_save {FS value} _ _ _ _.
Arguments read_txt_file {FS value} _ _ _.
Arguments named_temporary_file {FS value} _ _ _ _.
Arguments os_walk {FS value} _ _ _.
Arguments append_text {FS value} _ _ _ _.
Arguments glob_glob {FS value} _ _ _.
Arguments time_monotonic {FS value} _ _.
Arguments time_time {FS value} _ _.

(** ** The process state and the pipeline *)

Declare Scope py_scope.
Delimit Scope py_scope with py.

Section Pipeline.

Context {FS sample value : Type}.
Variable lib : FeatureLib FS sample value.
Variable sys : Platform FS value.

(** What the run does to its collaborators, in the order it does it. *)
Inductive Event : Type :=
| EvLoad (audio_path : string) (rate : Z)
| EvSlice (end_time : Q)
| EvResample (target_rate : pyfloat)
| EvFeature (name : string) (feature : AudioFeatures sample)
| EvMakedirs (dir : string)
| EvSaved (path : string) (d : gmap string (pyval value))
| EvBar (max : nat)
| EvNext
| EvFinish
| EvPrint (s : string)
| EvDispatch (n_jobs : Z) (args : list (string * string * Profile)).

(** The state of the process: the file system, the module-level list
    [_ERRORS], the records handed to [_LOG_FILE], the trace of calls and
    the number of time queries made so far. *)
Record World : Type := mkWorld {
  w_fs : FS;
  w_errors : list string;
  w_log : list (LogLevel * LogMsg);
  w_trace : list Event;
  w_tick : nat
}.

(** A computation changes the state and returns or raises; the state
    survives a raise. *)
Definition M (A : Type) : Type := World -> World * (exn + A).

Definition ret {A} (a : A) : M A := fun w => (w, inr a).
Definition raise {A} (e : exn) : M A := fun w => (w, inl e).
Definition bind {A B} (c : M A) (k : A -> M B) : M B :=
  fun w => match c w with
           | (w', inr a) => k a w'
           | (w', inl e) => (w', inl e)
           end.

Notation "x <- c ;; k" := (bind c (fun x => k))
  (at level 100, c at next level, right associativity) : py_scope.
Notation "c ;; k" := (bind c (fun _ => k))
  (at level 100, right associativity) : py_scope.
Local Open Scope py_scope.

(** [try: body except: handler] with a bare [except]. *)
Definition try_except {A} (body : M A) (handler : exn -> M A) : M A :=
  fun w => match body w with
           | (w', inl e) => handler e w'
           | r => r
           end.

Fixpoint for_each {A} (l : list A) (body : A -> M unit) : M unit :=
  match l with
  | [] => ret tt
  | x :: l' => body x ;; for_each l' body
  end.

Definition lift {A} (r : exn + A) : M A := fun w => (w, r).

Definition emit (e : Event) : M unit :=
  fun w => (mkWorld (w_fs w) (w_errors w) (w_log w) (w_trace w ++ [e]) (w_tick w), inr tt).

Definition on_fs {A} (op : FS -> FS * (exn + A)) : M A :=
  fun w => let '(fs', r) := op (w_fs w) in
           (mkWorld fs' (w_errors w) (w_log w) (w_trace w) (w_tick w), r).

Definition read_fs {A} (q : FS -> A) : M A := fun w => (w, inr (q (w_fs w))).

(** [_LOG_FILE.info(msg)] and [_LOG_FILE.debug(msg)] *)
Definition log_record (lvl : LogLevel) (msg : LogMsg) : M unit :=
  fun w => (mkWorld (w_fs w) (w_errors w) (w_log w ++ [(lvl, msg)]) (w_trace w) (w_tick w), inr tt).

(** [_ERRORS.append(x)] *)
Definition errors_append (x : string) : M unit :=
  fun w => (mkWorld (w_fs w) (w_errors w ++ [x]) (w_log w) (w_trace w) (w_tick w), inr tt).

Definition clock (reading : nat -> Q) : M Q :=
  fun w => (mkWorld (w_fs w) (w_errors w) (w_log w) (w_trace w) (S (w_tick w)),
            inr (reading (w_tick w))).

(** *** The calls to the feature object *)

Definition new_AudioFeatures (audio_path : string) (rate : Z) : M (AudioFeatures sample) :=
  emit (EvLoad audio_path rate) ;;
  vec <- (fun w => (w, decode lib (w_fs w) audio_path rate)) ;;
  ret (mkAudioFeatures audio_path rate vec).

Definition set_audio_vector (feature : AudioFeatures sample) (vec : list sample) :=
  mkAudioFeatures (audio_file feature) (fs feature) vec.

Definition call_audio_slicer (feature : AudioFeatures sample) (t : Q) : M (list sample) :=
  emit (EvSlice t) ;; lift (audio_slicer lib feature t).

Definition call_resample_audio (feature : AudioFeatures sample) (r : pyfloat)
    : M (list sample) :=
  emit (EvResample r) ;; lift (resample_audio lib feature r).

(** [getattr(feature, method)()] *)
Definition call_method (feature : AudioFeatures sample) (method : string) : M value :=
  match capability lib method with
  | None => raise (AttributeError method)
  | Some f => emit (EvFeature method feature) ;; lift (f feature)
  end.

(** *** compute_features *)

(** Lines 67-68: the loop filling [out_dict]. *)
Fixpoint compute_listed (feature : AudioFeatures sample) (methods : list string)
    (out_dict : gmap string (pyval value)) : M (gmap string (pyval value)) :=
  match methods with
  | [] => ret out_dict
  | method :: rest =>
      v <- call_method feature method ;;
      compute_listed feature rest (<[method := VFeat v]> out_dict)
  end.

(** Lines 56-58: the feature object, refused when its signal is empty. *)
Definition load_checked (audio_path : string) (params : Profile) : M (AudioFeatures sample) :=
  feature <- new_AudioFeatures audio_path (sample_rate params) ;;
  if (length (audio_vector feature) =? 0)%nat
  then raise (IOError ("Empty or invalid audio recording file -" +:+ audio_path +:+ "-"))
  else ret feature.

(** Lines 60-61 *)
Definition trim_step (params : Profile) (feature : AudioFeatures sample)
    : M (AudioFeatures sample) :=
  if truthy_endtime (endtime params)
  then vec <- call_audio_slicer feature (default 0%Q (endtime params)) ;;
       ret (set_audio_vector feature vec)
  else ret feature.

(** Lines 62-63 *)
Definition resample_step (params : Profile) (feature : AudioFeatures sample)
    : M (AudioFeatures sample) :=
  if downsample_audio params
  then rate <- lift (truediv (sample_rate params) (downsample_factor params)) ;;
       vec <- call_resample_audio feature rate ;;
       ret (set_audio_vector feature vec)
  else ret feature.

(** Lines 56-68: decoding, the emptiness check, trimming, resampling and
    the listed features. *)
Definition extract_listed (audio_path : string) (params : Profile)
    : M (gmap string (pyval value)) :=
  feature <- load_checked audio_path params ;;
  feature <- trim_step params feature ;;
  feature <- resample_step params feature ;;
  compute_listed feature (features params) ∅.

(** Lines 70-76: the two reserved keys. *)
Definition attach_reserved (audio_path : string) (params : Profile)
    (out_dict : gmap string (pyval value)) : M (gmap string (pyval value)) :=
  let track_id := PyStr.replace (PyStr.basename audio_path) (input_audio_format params) "" in
  let out_dict := <["track_id" := VStr track_id]> out_dict in
  label <- lift (from_option inr (inl IndexError)
                   (PyStr.index_from_end (PyStr.split audio_path) 2)) ;;
  ret (<["label" := VStr label]> out_dict).

Definition compute_features (audio_path : string) (params : Profile)
    : M (gmap string (pyval value)) :=
  out_dict <- extract_listed audio_path params ;;
  attach_reserved audio_path params out_dict.

(** *** compute_features_from_list_file *)

(** Lines 92-102: the start time, the manifest filtered to the paths that
    exist, the emptiness check and the progress bar. *)
Definition runner_prelude (input_txt_file : string) : M (Q * list string) :=
  start_time <- clock (time_monotonic sys) ;;
  log_record INFO (Text ("Extracting features for " +:+ input_txt_file +:+ " ")) ;;
  data <- (fun w => (w, read_txt_file sys (w_fs w) input_txt_file)) ;;
  data <- read_fs (fun fs_ => List.filter (os_path_exists sys fs_) data) ;;
  (if (length data <? 1)%nat
   then log_record DEBUG (Text ("Empty collection txt file -" +:+ input_txt_file +:+ "- !")) ;;
        raise (IOError ("Empty collection txt file -" +:+ input_txt_file +:+ "- !"))
   else ret tt) ;;
  emit (EvBar (length data)) ;;
  ret (start_time, data).

(** Lines 105-112: the body of the [try]. *)
Definition extract_and_save (feature_dir : string) (params : Profile) (song : string)
    : M unit :=
  feature_dict <- compute_features song params ;;
  work_id <- lift (from_option inr (inl IndexError)
                     (PyStr.index_from_end (PyStr.split song) 2)) ;;
  let work_dir := feature_dir +:+ work_id +:+ "/" in
  present <- read_fs (fun fs_ => os_path_exists sys fs_ work_dir) ;;
  (if negb present
   then emit (EvMakedirs work_dir) ;; on_fs (fun fs_ => os_makedirs sys fs_ work_dir)
   else ret tt) ;;
  let target := work_dir
                +:+ PyStr.replace (PyStr.basename song) (input_audio_format params) ""
                +:+ ".h5" in
  on_fs (fun fs_ => dd_io_save sys fs_ target feature_dict) ;;
  emit (EvSaved target feature_dict).

(** Lines 114-116: the handler. *)
Definition record_failure (input_txt_file song : string) : M unit :=
  errors_append input_txt_file ;;
  errors_append song ;;
  log_record DEBUG (Text ("Error: skipping computing features for audio file --"
                          +:+ song +:+ "-- ")).

(** Lines 104-117: one turn of the loop. *)
Definition runner_step (input_txt_file feature_dir : string) (params : Profile)
    (song : string) : M unit :=
  try_except (extract_and_save feature_dir params song)
             (fun _ => record_failure input_txt_file song) ;;
  emit EvNext.

(** Lines 118-119: the bar is closed and the summary logged. *)
Definition runner_finish (start_time : Q) : M unit :=
  emit EvFinish ;;
  now <- clock (time_time sys) ;;
  log_record INFO (ProcessFinished (start_time - now)%Q).

Definition compute_features_from_list_file (input_txt_file feature_dir : string)
    (params : Profile) : M unit :=
  started <- runner_prelude input_txt_file ;;
  for_each (snd started) (runner_step input_txt_file feature_dir params) ;;
  runner_finish (fst started).

(** The paths whose [try] body raises when the loop runs over [data]
    from state [w], in order. *)
Fixpoint failures (input_txt_file feature_dir : string) (params : Profile)
    (data : list string) (w : World) : list string :=
  match data with
  | [] => []
  | song :: rest =>
      (match snd (extract_and_save feature_dir params song w) with
       | inl _ => [song]
       | inr _ => []
       end)
      ++ failures input_txt_file feature_dir params rest
           (fst (runner_step input_txt_file feature_dir params song w))
  end.

(** *** batch_feature_extractor *)

Fixpoint zip3 {A B C} (la : list A) (lb : list B) (lc : list C) : list (A * B * C) :=
  match la, lb, lc with
  | a :: la', b :: lb', c :: lc' => (a, b, c) :: zip3 la' lb' lc'
  | _, _, _ => []
  end.

(** Lines 130-134: the lines one directory of the walk adds to the
    manifest. *)
Definition manifest_lines (entry : string * list string * list string) : list string :=
  let '(path, _, files) := entry in
  map (fun name => PyStr.join path name +:+ PyStr.newline)
      (List.filter (fun name => PyStr.endswith name ".mp3") files).

(** Lines 128-141: the temporary manifest is written and the argument
    triples of the parallel call are built.  The printed line is kept up
    to the rendering of the profile. *)
Definition batch_args (audio_dir feature_dir : string) (extractor_profile : Profile)
    : M (list (string * string * Profile)) :=
  temp_name <- on_fs (fun fs_ => named_temporary_file sys fs_ "tmp" "./") ;;
  walk <- read_fs (fun fs_ => os_walk sys fs_ audio_dir) ;;
  for_each walk (fun entry =>
    on_fs (fun fs_ => append_text sys fs_ temp_name (manifest_lines entry))) ;;
  collection_files <- read_fs (fun fs_ => glob_glob sys fs_ temp_name) ;;
  let feature_path := map (fun _ => feature_dir) (seq 0 (length collection_files)) in
  let param_list := map (fun _ => extractor_profile) (seq 0 (length collection_files)) in
  let args := zip3 collection_files feature_path param_list in
  emit (EvPrint "Computing batch feature extraction using 'parallel' mode the profile: ") ;;
  ret args.

(** [Parallel(n_jobs=n_workers)(...)] over the delayed calls built from
    [args]: what is handed to joblib is recorded, then joblib runs it. *)
Variable joblib_Parallel : Z -> list (M unit) -> M unit.

Definition Parallel (n_jobs : Z) (args : list (string * string * Profile)) : M unit :=
  emit (EvDispatch n_jobs args) ;;
  joblib_Parallel n_jobs
    (map (fun '(cpath, fpath, param) => compute_features_from_list_file cpath fpath param)
         args).

Definition batch_feature_extractor (audio_dir feature_dir : string) (n_workers : Z)
    (extractor_profile : Profile) : M unit :=
  args <- batch_args audio_dir feature_dir extractor_profile ;;
  try_except (Parallel n_workers args)
             (fun _ => emit (EvPrint "Skipping extraction for a single file with unkown ID")).

(** *** Reading a trace *)

Definition with_trace (w : World) (new : list Event) : World :=
  mkWorld (w_fs w) (w_errors w) (w_log w) (w_trace w ++ new) (w_tick w).

(** The files handed to the feature object's constructor. *)
Definition loads (tr : list Event) : list string :=
  omap (fun e => match e with EvLoad p _ => Some p | _ => None end) tr.

(** The capabilities invoked. *)
Definition feature_calls (tr : list Event) : list string :=
  omap (fun e => match e with EvFeature m _ => Some m | _ => None end) tr.

(** The artifacts written. *)
Definition saved (tr : list Event) : list string :=
  omap (fun e => match e with EvSaved p _ => Some p | _ => None end) tr.

(** The calls of [progress_bar.next()]. *)
Definition nexts (tr : list Event) : list unit :=
  omap (fun e => match e with EvNext => Some tt | _ => None end) tr.

(** The parallel calls, each with its [n_jobs] and its argument triples. *)
Definition dispatched (tr : list Event) : list (Z * list (string * string * Profile)) :=
  omap (fun e => match e with EvDispatch n a => Some (n, a) | _ => None end) tr.

End Pipeline.

Arguments Event : clear implicits.
Arguments World : clear implicits.
Arguments M : clear implicits.

(** The filename with the suffix removed, in the words of the
    specification: the suffix is cut off the end when the name ends in it. *)
Definition strip_suffix (name suffix : string) : string :=
  if PyStr.endswith name suffix
  then String.substring 0 (String.length name - String.length suffix) name
  else name.

(** ** A small concrete platform

    A file system of text files whose lines stand for the audio frames, a
    feature library with the four capabilities of the default profile, two
    clocks that start at different origins and a joblib that runs its tasks
    one after the other.  The statements that need a concrete run are
    evaluated on it. *)

Module Demo.

Inductive node : Type := Dir | File (lines : list string).

Definition FS : Type := list (string * node).

Fixpoint lookup (fs_ : FS) (path : string) : option node :=
  match fs_ with
  | [] => None
  | (p, n) :: rest => if String.eqb p path then Some n else lookup rest path
  end.

Fixpoint update (fs_ : FS) (path : string) (n : node) : FS :=
  match fs_ with
  | [] => [(path, n)]
  | (p, m) :: rest => if String.eqb p path then (p, n) :: rest else (p, m) :: update rest path n
  end.

Definition exists_ (fs_ : FS) (path : string) : bool :=
  match lookup fs_ path with Some _ => true | None => false end.

(** A frame per line: its length. *)
Definition decode (fs_ : FS) (path : string) (rate : Z) : exn + list Z :=
  match lookup fs_ path with
  | Some (File lines) => inr (map (fun l => Z.of_nat (String.length l)) lines)
  | _ => inl (External "cannot decode")
  end.

Definition audio_slicer (feature : AudioFeatures Z) (t : Q) : exn + list Z :=
  inr (take (Z.to_nat (Qfloor (t * inject_Z (fs feature)))) (audio_vector feature)).

(** The number a float stands for; zero for what is no number. *)
Definition float_value (x : pyfloat) : Q :=
  match x with
  | SpecFloat.S754_finite s m e =>
      let v := (inject_Z (Zpos m) * (2 ^ e))%Q in if s then (- v)%Q else v
  | _ => 0%Q
  end.

Definition resample_audio (feature : AudioFeatures Z) (r : pyfloat) : exn + list Z :=
  if Qle_bool (float_value r) (inject_Z (fs feature))
  then inr (take (Z.to_nat (Qceiling (inject_Z (Z.of_nat (length (audio_vector feature)))
                                      * float_value r / inject_Z (fs feature))))
                 (audio_vector feature))
  else inl (External "ValueError").

Definition capability (name : string) : option (AudioFeatures Z -> exn + Z) :=
  if String.eqb name "hpcp" then Some (fun f => inr (fold_right Z.add 0 (audio_vector f)))
  else if String.eqb name "key_extractor" then Some (fun f => inr (fold_right Z.max 0 (audio_vector f)))
  else if String.eqb name "madmom_features" then Some (fun f => inr (Z.of_nat (length (audio_vector f))))
  else if String.eqb name "mfcc_htk" then Some (fun f => inr (hd 0 (audio_vector f)))
  else None.

Definition lib : FeatureLib FS Z Z :=
  mkFeatureLib FS Z Z decode audio_slicer resample_audio capability.

Definition strip_newline (l : string) : string := PyStr.replace l PyStr.newline "".

Definition read_txt_file (fs_ : FS) (path : string) : exn + list string :=
  match lookup fs_ path with
  | Some (File lines) => inr (map strip_newline lines)
  | _ => inl (External "FileNotFoundError")
  end.

Definition os_makedirs (fs_ : FS) (dir : string) : FS * (exn + unit) :=
  if exists_ fs_ dir then (fs_, inl (External "FileExistsError"))
  else (update fs_ dir Dir, inr tt).

Definition dd_io_save (fs_ : FS) (path : string) (d : gmap string (pyval Z))
    : FS * (exn + unit) :=
  (update fs_ path (File ["h5"]), inr tt).

Definition named_temporary_file (fs_ : FS) (prefix dir : string) : FS * (exn + string) :=
  let name := dir +:+ prefix +:+ "k3x9_q1z" in
  (update fs_ name (File []), inr name).

Definition append_text (fs_ : FS) (path : string) (lines : list string) : FS * (exn + unit) :=
  match lookup fs_ path with
  | Some (File old) => (update fs_ path (File (old ++ lines)), inr tt)
  | Some Dir => (fs_, inl (External "IsADirectoryError"))
  | None => (update fs_ path (File lines), inr tt)
  end.

(** The directory a path lies in. *)
Definition parent (path : string) : string :=
  let n := (String.length path - String.length (PyStr.basename path) - 1)%nat in
  String.substring 0 n path.

(** One entry per file below [top], each under its own directory. *)
Definition os_walk (fs_ : FS) (top : string) : list (string * list string * list string) :=
  omap (fun '(p, n) =>
          match n with
          | File _ => if PyStr.startswith p (top +:+ "/")
                      then Some (parent p, [], [PyStr.basename p]) else None
          | Dir => None
          end) fs_.

(** A name without wildcards matches itself when it exists. *)
Definition glob_glob (fs_ : FS) (pattern : string) : list string :=
  if exists_ fs_ pattern then [pattern] else [].

Definition time_monotonic (n : nat) : Q := inject_Z (100 + Z.of_nat n).
Definition time_time (n : nat) : Q := inject_Z (1700000000 + Z.of_nat n).

Definition sys : Platform FS Z :=
  mkPlatform FS Z exists_ os_makedirs dd_io_save read_txt_file named_temporary_file
             os_walk append_text glob_glob time_monotonic time_time.

(** joblib refuses [n_jobs = 0]; otherwise the tasks run in turn. *)
Definition joblib_Parallel (n_jobs : Z) (tasks : list (M FS Z Z unit)) : M FS Z Z unit :=
  if n_jobs =? 0 then raise (External "ValueError")
  else for_each tasks (fun task => task).

Definition disk : FS :=
  [ ("audio_dir/cliqueA/song1.mp3", File ["aaa"; "bb"; "c"]);
    ("audio_dir/cliqueA/song2.mp3", File []);
    ("audio_dir/cliqueB/song3.mp3", File ["dddd"; "e"]);
    ("audio_dir/cliqueB/a.mp3b.mp3", File ["hh"]);
    ("song4.mp3", File ["ff"; "g"]);
    ("list.txt", File [ "audio_dir/cliqueA/song1.mp3" +:+ PyStr.newline;
                        "audio_dir/cliqueZ/gone.mp3" +:+ PyStr.newline;
                        "audio_dir/cliqueA/song2.mp3" +:+ PyStr.newline;
                        "audio_dir/cliqueB/song3.mp3" +:+ PyStr.newline ]);
    ("gone.txt", File [ "audio_dir/cliqueZ/gone.mp3" +:+ PyStr.newline ]) ].

Definition boot : World FS Z Z := mkWorld disk [] [] [] 0%nat.

Definition trimmed : Profile :=
  mkProfile 4 ".mp3" true 2 (Some (1 # 2)%Q) ["hpcp"; "madmom_features"].

End Demo.

(** ** The manifest the orchestrator writes *)

Section Manifest.

Context {FS value : Type}.
Variable sys : Platform FS value.

(** The loop of lines 130-134 on the file system alone: the lines of each
    directory of the walk are appended to [temp_name], in the order of the
    walk, up to the first append that raises. *)
Fixpoint write_manifest (temp_name : string)
    (walk : list (string * list string * list string)) (fs_ : FS) : FS * (exn + unit) :=
  match walk with
  | [] => (fs_, inr tt)
  | entry :: rest =>
      match append_text sys fs_ temp_name (manifest_lines entry) with
      | (fs', inl e) => (fs', inl e)
      | (fs', inr _) => write_manifest temp_name rest fs'
      end
  end.

End Manifest.

(** ** More readings of a trace *)

Section Readers.

Context {sample value : Type}.

(** The artifacts written, each with the dictionary stored in it. *)
Definition artifacts (tr : list (Event sample value))
    : list (string * gmap string (pyval value)) :=
  omap (fun e => match e with EvSaved p d => Some (p, d) | _ => None end) tr.

(** The directories handed to [os.makedirs]. *)
Definition makedirs_calls (tr : list (Event sample value)) : list string :=
  omap (fun e => match e with EvMakedirs d => Some d | _ => None end) tr.

End Readers.

(** The record the handler of line 116 logs for [song]. *)
Definition skip_record (song : string) : LogLevel * LogMsg :=
  (DEBUG, Text ("Error: skipping computing features for audio file --" +:+ song +:+ "-- ")).

(** Where line 111 stores the features of a track of [clique]. *)
Definition artifact_path (feature_dir clique track_id : string) : string :=
  (feature_dir +:+ clique +:+ "/") +:+ track_id +:+ ".h5".

(** ** The account of a turn of the runner's loop *)

Section Turns.

Context {FS sample value : Type}.
Variable lib : FeatureLib FS sample value.
Variable sys : Platform FS value.

(** Lines 108-109 on the file system: the directory is made when it is
    absent. *)
Definition ensure_dir (fs_ : FS) (work_dir : string) : FS * (exn + unit) :=
  if os_path_exists sys fs_ work_dir then (fs_, inr tt) else os_makedirs sys fs_ work_dir.

(** The turn on [song], from the state [w0] to the state [w1] with the
    calls [mid] between the decoding and the step of the progress bar,
    extracted and stored: [compute_features] returned a mapping on [song],
    every listed feature was invoked, the directory of the clique was
    there or was made, and the mapping was saved, once, at the place of
    the song's clique and track id; [_ERRORS] is as it was. *)
Definition turn_stored (feature_dir : string) (params : Profile) (song : string)
    (w0 w1 : World FS sample value) (mid : list (Event sample value)) : Prop :=
  ∃ d clique fs1,
    snd (compute_features lib song params w0) = inr d
    ∧ feature_calls mid = features params
    ∧ dom d = list_to_set (features params) ∪ {["track_id"; "label"]}
    ∧ PyStr.index_from_end (PyStr.split song) 2 = Some clique
    ∧ ensure_dir (w_fs w0) (feature_dir +:+ clique +:+ "/") = (fs1, inr tt)
    ∧ dd_io_save sys fs1
        (artifact_path feature_dir clique
           (PyStr.replace (PyStr.basename song) (input_audio_format params) "")) d
      = (w_fs w1, inr tt)
    ∧ artifacts mid
      = [(artifact_path feature_dir clique
            (PyStr.replace (PyStr.basename song) (input_audio_format params) ""), d)]
    ∧ w_errors w1 = w_errors w0.

(** The same turn, skipped: nothing was stored and [_ERRORS] gained the
    manifest and the song, and this because [compute_features] raised on
    [song], or making the directory raised, or saving raised. *)
Definition turn_skipped (input_txt_file feature_dir : string) (params : Profile)
    (song : string) (w0 w1 : World FS sample value) (mid : list (Event sample value))
    : Prop :=
  artifacts mid = []
  ∧ w_errors w1 = w_errors w0 ++ [input_txt_file; song]
  ∧ ((∃ e, snd (compute_features lib song params w0) = inl e ∧ w_fs w1 = w_fs w0)
     ∨ ∃ d clique,
         snd (compute_features lib song params w0) = inr d
         ∧ PyStr.index_from_end (PyStr.split song) 2 = Some clique
         ∧ ((∃ e, ensure_dir (w_fs w0) (feature_dir +:+ clique +:+ "/") = (w_fs w1, inl e))
            ∨ ∃ fs1 e,
                ensure_dir (w_fs w0) (feature_dir +:+ clique +:+ "/") = (fs1, inr tt)
                ∧ dd_io_save sys fs1
                    (artifact_path feature_dir clique
                       (PyStr.replace (PyStr.basename song) (input_audio_format params) ""))
                    d
                  = (w_fs w1, inl e))).

(** One turn of the loop: [song] is decoded first, the progress bar
    advances last, and in between the song is stored or skipped. *)
Definition turn_account (input_txt_file feature_dir : string) (params : Profile)
    (song : string) (w0 w1 : World FS sample value) : Prop :=
  ∃ mid,
    w_trace w1 = w_trace w0 ++ EvLoad song (sample_rate params) :: mid ++ [EvNext]
    ∧ loads mid = [] ∧ nexts mid = []
    ∧ (turn_stored feature_dir params song w0 w1 mid
       ∨ turn_skipped input_txt_file feature_dir params song w0 w1 mid).

(** The turns on [data], one after the other, from [w0] to [w_end]. *)
Fixpoint loop_account (input_txt_file feature_dir : string) (params : Profile)
    (data : list string) (w0 w_end : World FS sample value) : Prop :=
  match data with
  | [] => w_end = w0
  | song :: rest =>
      ∃ w1, turn_account input_txt_file feature_dir params song w0 w1
            ∧ loop_account input_txt_file feature_dir params rest w1 w_end
  end.

End Turns.

(** An artifact lies where its own 'label' and 'track_id' say. *)
Definition stored_under_keys {value : Type} (feature_dir : string)
    (a : string * gmap string (pyval value)) : Prop :=
  ∃ clique track_id,
    a.2 !! "label" = Some (VStr clique)
    ∧ a.2 !! "track_id" = Some (VStr track_id)
    ∧ a.1 = artifact_path feature_dir clique track_id.

(** A profile with another end time. *)
Definition with_endtime (params : Profile) (e : option Q) : Profile :=
  mkProfile (sample_rate params) (input_audio_format params) (downsample_audio params)
            (downsample_factor params) e (features params).

(** ** The command line (lines 151-174) *)

Module Cli.

(** What an attribute of the parsed arguments holds. *)
Inductive argval : Type := ANone | AStr (s : string) | AInt (n : Z).

(** One [parser.add_argument(short, long, action="store", default=...)]. *)
Record Argument : Type := mkArgument {
  short_flag : string;
  long_flag : string;
  arg_default : argval
}.

(** Lines 154-168. *)
Definition parser_arguments : list Argument :=
  [ mkArgument "-d" "--dataset_csv" ANone;
    mkArgument "-a" "--audio_dir" ANone;
    mkArgument "-p" "--feature_dir" ANone;
    mkArgument "-f" "--feature_list"
      (AStr "['hpcp', 'crema', 'chroma_cqt', 'chroma_cqt_processed', 'mfcc_htk']");
    mkArgument "-m" "--run_mode" (AStr "parallel");
    mkArgument "-n" "--workers" (AInt (-1)) ].

(** The attribute argparse stores an optional argument under: its first
    long option without the leading dashes, inner dashes turned into
    underscores. *)
Definition dest (a : Argument) : string :=
  PyStr.replace (PyStr.drop 2 (long_flag a)) "-" "_".

(** [parser.parse_args()] when it returns: every declared argument is an
    attribute, holding the string given for it on the command line or else
    its default.  [given] maps a destination to the string given. *)
Definition parse_args (given : gmap string string) : gmap string argval :=
  list_to_map
    (map (fun a => (dest a, match given !! dest a with
                            | Some v => AStr v
                            | None => arg_default a
                            end))
         parser_arguments).

(** [cmd_args.name] *)
Definition getattr (cmd_args : gmap string argval) (name : string) : exn + argval :=
  match cmd_args !! name with
  | Some v => inr v
  | None => inl (AttributeError name)
  end.

(** The attributes the main block reads, in the order it reads them
    (lines 174, 175, 177 and 182). *)
Definition attributes_read : list string := ["p"; "p"; "f"; "a"; "p"; "n"].

End Cli.

(** ** More concrete inputs *)

Module Cases.

(** A feature library like the one of [Demo] with one capability more,
    [crema], which raises on every signal. *)
Definition capability (name : string) : option (AudioFeatures Z -> exn + Z) :=
  if String.eqb name "crema" then Some (fun _ => inl (External "model file not found"))
  else Demo.capability name.

Definition lib : FeatureLib Demo.FS Z Z :=
  mkFeatureLib Demo.FS Z Z Demo.decode Demo.audio_slicer Demo.resample_audio capability.

Definition song1 : AudioFeatures Z :=
  mkAudioFeatures "audio_dir/cliqueA/song1.mp3" 44100 [3; 2; 1].

(** The default profile with downsampling by a factor of zero. *)
Definition zero_factor : Profile :=
  mkProfile 44100 ".mp3" true 0 None (features PROFILE).

(** The default profile with an end time of zero seconds. *)
Definition zero_endtime : Profile := with_endtime PROFILE (Some 0%Q).

End Cases.

(** * Properties *)

(** ** Strings *)

Lemma split_not_nil (s : string) : PyStr.split s ≠ [].
Proof.
  induction s as [|c s IH]; simpl; [done|].
  destruct (Ascii.eqb c PyStr.slash); [done|].
  destruct (PyStr.split s); done.
Qed.

Lemma split_without_slash (s : string) :
  PyStr.contains_slash s = false → PyStr.split s = [s].
Proof.
  induction s as [|c s IH]; simpl; [done|].
  destruct (Ascii.eqb c PyStr.slash); simpl; [done|].
  intros H. by rewrite (IH H).
Qed.

Lemma split_with_slash (s : string) :
  PyStr.contains_slash s = true → (2 <= length (PyStr.split s))%nat.
Proof.
  induction s as [|c s IH]; simpl; [done|].
  destruct (Ascii.eqb c PyStr.slash); simpl.
  - intros _. pose proof (split_not_nil s). destruct (PyStr.split s); [done|simpl; lia].
  - intros H. specialize (IH H). destruct (PyStr.split s); simpl in *; lia.
Qed.

Lemma split_short_iff (s : string) :
  (length (PyStr.split s) < 2)%nat ↔ PyStr.contains_slash s = false.
Proof.
  split.
  - intros Hlen. destruct (PyStr.contains_slash s) eqn:E; [|done].
    apply split_with_slash in E. lia.
  - intros H. rewrite (split_without_slash s H). simpl. lia.
Qed.

Lemma index_from_end_2_none {A} (l : list A) :
  PyStr.index_from_end l 2 = None ↔ (length l < 2)%nat.
Proof.
  unfold PyStr.index_from_end. rewrite lookup_ge_None, length_rev. lia.
Qed.


Lemma split_app_slash (a b : string) :
  PyStr.split (a +:+ String PyStr.slash b) = PyStr.split a ++ PyStr.split b.
Proof.
  induction a as [|c a IH]; simpl; [done|].
  rewrite IH. destruct (Ascii.eqb c PyStr.slash); [done|].
  pose proof (split_not_nil a). by destruct (PyStr.split a).
Qed.

(** In a path [<clique>/<file>], with or without directories in front, the
    second-to-last component is the clique. *)
Lemma label_of_clique_path (clique file : string) :
  PyStr.contains_slash clique = false →
  PyStr.contains_slash file = false →
  PyStr.index_from_end (PyStr.split (clique +:+ String PyStr.slash file)) 2 = Some clique
  ∧ ∀ root,
      PyStr.index_from_end
        (PyStr.split (root +:+ String PyStr.slash (clique +:+ String PyStr.slash file))) 2
      = Some clique.
Proof.
  intros Hc Hf. split; [|intros root]; rewrite !split_app_slash;
    rewrite (split_without_slash _ Hc), (split_without_slash _ Hf);
    unfold PyStr.index_from_end; rewrite ?rev_app_distr; done.
Qed.

Lemma basename_app_slash (a file : string) :
  PyStr.contains_slash file = false →
  PyStr.basename (a +:+ String PyStr.slash file) = file.
Proof.
  intros Hf.
  assert (Hbase : PyStr.basename file = file).
  { destruct file as [|c file]; [done|]. simpl in *.
    apply orb_false_elim in Hf as [-> ->]. done. }
  assert (Hin : ∀ s, PyStr.contains_slash (s +:+ String PyStr.slash file) = true).
  { induction s as [|c s IHs]; simpl; [done|]. rewrite IHs. apply orb_true_r. }
  induction a as [|c a IH]; simpl; [done|].
  rewrite IH, Hin. by destruct (Ascii.eqb c PyStr.slash).
Qed.

Lemma startswith_refl (s : string) : PyStr.startswith s s = true.
Proof. induction s as [|c s IH]; simpl; [done|]. by rewrite Ascii.eqb_refl. Qed.

Lemma replace_scan_skip_all (old new s : string) :
  PyStr.replace_scan old new (String.length s) s = "".
Proof. induction s as [|c s IH]; simpl; done. Qed.

(** When the format string occurs in the filename only as its suffix,
    removing every occurrence leaves the stem. *)
Lemma replace_only_suffix (stem suffix : string) :
  suffix ≠ "" →
  (∀ i, (i < String.length stem)%nat →
        PyStr.startswith (PyStr.drop i (stem +:+ suffix)) suffix = false) →
  PyStr.replace (stem +:+ suffix) suffix "" = stem.
Proof.
  intros Hne. destruct suffix as [|a suffix]; [done|].
  unfold PyStr.replace.
  induction stem as [|c stem IH]; intros Hocc.
  - change ("" +:+ String a suffix) with (String a suffix).
    cbn [PyStr.replace_scan].
    rewrite startswith_refl.
    change (String.length (String a suffix) - 1)%nat with (String.length suffix - 0)%nat.
    by rewrite Nat.sub_0_r, replace_scan_skip_all.
  - change (String c stem +:+ String a suffix) with (String c (stem +:+ String a suffix)).
    cbn [PyStr.replace_scan].
    pose proof (Hocc 0%nat ltac:(simpl; lia)) as H0.
    change (PyStr.drop 0 (String c stem +:+ String a suffix))
      with (String c (stem +:+ String a suffix)) in H0.
    rewrite H0. f_equal. apply IH. intros i Hi. apply (Hocc (S i)). simpl. lia.
Qed.

Lemma substring_prefix (stem rest : string) :
  String.substring 0 (String.length stem) (stem +:+ rest) = stem.
Proof.
  induction stem as [|c stem IH]; simpl.
  - by destruct rest.
  - by rewrite IH.
Qed.

Lemma length_app_string (a b : string) :
  String.length (a +:+ b) = (String.length a + String.length b)%nat.
Proof. induction a as [|c a IH]; simpl; [done|]. by rewrite IH. Qed.

Lemma drop_app_string (a b : string) : PyStr.drop (String.length a) (a +:+ b) = b.
Proof. induction a as [|c a IH]; simpl; [by destruct b|done]. Qed.

(** The suffix cut off the end of [stem ++ suffix] leaves the stem. *)
Lemma strip_suffix_app (stem suffix : string) : strip_suffix (stem +:+ suffix) suffix = stem.
Proof.
  unfold strip_suffix, PyStr.endswith. rewrite length_app_string.
  replace (String.length stem + String.length suffix - String.length suffix)%nat
    with (String.length stem) by lia.
  rewrite drop_app_string, String.eqb_refl, substring_prefix.
  destruct (String.length suffix <=? String.length stem + String.length suffix)%nat eqn:E;
    [done|].
  apply Nat.leb_gt in E. lia.
Qed.

(** *** The string operations on examples *)

Example split_ex1 : PyStr.split "audio_dir/cliqueA/song1.mp3" = ["audio_dir"; "cliqueA"; "song1.mp3"].
Proof. reflexivity. Qed.
Example split_ex2 : PyStr.split "song1.mp3" = ["song1.mp3"].
Proof. reflexivity. Qed.
Example split_ex3 : PyStr.split "/a//b/" = [""; "a"; ""; "b"; ""].
Proof. reflexivity. Qed.
Example basename_ex1 : PyStr.basename "audio_dir/cliqueA/song1.mp3" = "song1.mp3".
Proof. reflexivity. Qed.
Example basename_ex2 : PyStr.basename "a/b/" = "".
Proof. reflexivity. Qed.
Example replace_ex1 : PyStr.replace "song1.mp3" ".mp3" "" = "song1".
Proof. reflexivity. Qed.
Example replace_ex2 : PyStr.replace "a.mp3b.mp3" ".mp3" "" = "ab".
Proof. reflexivity. Qed.
Example replace_ex3 : PyStr.replace "aaa" "aa" "b" = "ba".
Proof. reflexivity. Qed.
Example replace_ex4 : PyStr.replace "abc" "" "" = "abc".
Proof. reflexivity. Qed.
Example endswith_ex1 : PyStr.endswith "x.mp3" ".mp3" = true.
Proof. reflexivity. Qed.
Example join_ex1 : PyStr.join "a/b" "c.mp3" = "a/b/c.mp3".
Proof. reflexivity. Qed.

(** ** The division of line 63 *)

(** [44100 / 2] is the float 22050.0. *)
Example truediv_default_rate :
  truediv 44100 2 = inr (SpecFloat.S754_finite false 6061057848115200 (-38)).
Proof. vm_compute. reflexivity. Qed.

(** [1 / 3] is the binary64 number nearest to a third, 0x1.5555555555555p-2,
    not the fraction. *)
Example truediv_rounds :
  truediv 1 3 = inr (SpecFloat.S754_finite false 6004799503160661 (-54)).
Proof. vm_compute. reflexivity. Qed.

Example truediv_zero_divisor : truediv 44100 0 = inl ZeroDivisionError.
Proof. reflexivity. Qed.

(** The largest quotient that still rounds to a float, and the first one
    that does not. *)
Example truediv_largest :
  truediv (2 ^ 1024 - 2 ^ 970 - 1) 1
  = inr (SpecFloat.S754_finite false 9007199254740991 971).
Proof. vm_compute. reflexivity. Qed.

Example truediv_overflow : truediv (2 ^ 1024 - 2 ^ 970) 1 = inl OverflowError.
Proof. vm_compute. reflexivity. Qed.

Lemma truediv_by_zero (a : Z) : truediv a 0 = inl ZeroDivisionError.
Proof. reflexivity. Qed.

Lemma truediv_finite (a b : Z) (q : pyfloat) :
  truediv a b = inr q → ∀ s, q ≠ SpecFloat.S754_infinity s.
Proof.
  unfold truediv. destruct (b =? 0)%Z; [done|].
  destruct (SpecFloat.SFdiv 53 1024 (int_operand a) (int_operand b));
    intros [= <-]; done.
Qed.

(** ** The single-file extractor *)

Section ExtractorFacts.

Context {FS sample value : Type}.
Variable lib : FeatureLib FS sample value.

Implicit Types (w : World FS sample value) (params : Profile).

Lemma with_trace_nil w : with_trace w [] = w.
Proof. destruct w. unfold with_trace. simpl. by rewrite app_nil_r. Qed.

Lemma with_trace_app w (a b : list (Event sample value)) :
  with_trace (with_trace w a) b = with_trace w (a ++ b).
Proof. unfold with_trace. simpl. by rewrite app_assoc. Qed.

Lemma emit_with_trace (e : Event sample value) w :
  emit e w = (with_trace w [e], inr tt).
Proof. reflexivity. Qed.

(** The loop over the listed features invokes them in order, stops at the
    first that is missing or raises, and on success has stored every one
    of them. *)
Lemma compute_listed_spec (feature : AudioFeatures sample) (methods : list string) :
  ∀ (d : gmap string (pyval value)) w,
  ∃ done r,
    compute_listed lib feature methods d w
    = (with_trace w (map (fun m => EvFeature m feature) done), r)
    ∧ done `prefix_of` methods
    ∧ (∀ d', r = inr d' →
         done = methods ∧ dom d' = dom d ∪ list_to_set methods).
Proof.
  induction methods as [|m rest IH]; intros d w.
  - exists [], (inr d). simpl. rewrite with_trace_nil.
    split; [done|]. split; [done|].
    intros d' [= <-]. split; [done|set_solver].
  - simpl. unfold bind, call_method.
    destruct (capability lib m) as [f|] eqn:Hcap.
    + unfold bind. rewrite emit_with_trace. unfold lift.
      destruct (f feature) as [e|v] eqn:Hf.
      * exists [m], (inl e). simpl.
        split; [done|]. split; [apply prefix_cons, prefix_nil|done].
      * destruct (IH (<[m:=VFeat v]> d) (with_trace w [EvFeature m feature]))
          as (done & r & Hrun & Hpre & Hok).
        exists (m :: done), r. rewrite Hrun, with_trace_app. simpl.
        split; [done|]. split; [by apply prefix_cons|].
        intros d' Hr. destruct (Hok d' Hr) as [-> Hdom]. split; [done|].
        rewrite Hdom, dom_insert_L. set_solver.
    + exists [], (inl (AttributeError m)). unfold raise. simpl.
      rewrite with_trace_nil.
      split; [done|]. split; [apply prefix_nil|done].
Qed.

Lemma bind_eq {A B} (c : M FS sample value A) (k : A → M FS sample value B) w :
  bind c k w = match c w with
               | (w', inr a) => k a w'
               | (w', inl e) => (w', inl e)
               end.
Proof. reflexivity. Qed.

Lemma load_checked_spec audio_path params w :
  load_checked lib audio_path params w
  = (with_trace w [EvLoad audio_path (sample_rate params)],
     match decode lib (w_fs w) audio_path (sample_rate params) with
     | inl e => inl e
     | inr vec =>
         if (length vec =? 0)%nat
         then inl (IOError ("Empty or invalid audio recording file -" +:+ audio_path +:+ "-"))
         else inr (mkAudioFeatures audio_path (sample_rate params) vec)
     end).
Proof.
  unfold load_checked, new_AudioFeatures, bind, emit, ret, raise, with_trace. simpl.
  destruct (decode lib (w_fs w) audio_path (sample_rate params)) as [e|vec]; [done|].
  simpl. by destruct (length vec =? 0)%nat.
Qed.

Lemma trim_step_spec params (f0 : AudioFeatures sample) w :
  ∃ trim r,
    trim_step lib params f0 w = (with_trace w trim, r)
    ∧ (trim = [] ∨ ∃ t, endtime params = Some t ∧ trim = [EvSlice t])
    ∧ (∀ f1, r = inr f1 →
         (truthy_endtime (endtime params) = true → trim ≠ [])
         ∧ ∃ vec1, f1 = mkAudioFeatures (audio_file f0) (fs f0) vec1).
Proof.
  unfold trim_step.
  destruct (endtime params) as [t|] eqn:Het; simpl.
  - destruct (negb (Qeq_bool t 0)).
    + unfold call_audio_slicer. rewrite !bind_eq, emit_with_trace. unfold lift.
      destruct (audio_slicer lib f0 t) as [e|vec1].
      * exists [EvSlice t], (inl e). split; [done|]. split; [right; eauto|done].
      * exists [EvSlice t], (inr (set_audio_vector f0 vec1)).
        split; [done|]. split; [right; eauto|].
        intros f1 [= <-]. split; [done|]. by exists vec1.
    + exists [], (inr f0). unfold ret. rewrite with_trace_nil.
      split; [done|]. split; [by left|].
      intros f1 [= <-]. split; [done|]. exists (audio_vector f0). by destruct f0.
  - exists [], (inr f0). unfold ret. rewrite with_trace_nil.
    split; [done|]. split; [by left|].
    intros f1 [= <-]. split; [done|]. exists (audio_vector f0). by destruct f0.
Qed.

Lemma resample_step_spec params (f1 : AudioFeatures sample) w :
  ∃ res r,
    resample_step lib params f1 w = (with_trace w res, r)
    ∧ (res = [] ∨ ∃ q, truediv (sample_rate params) (downsample_factor params) = inr q
                       ∧ res = [EvResample q])
    ∧ (∀ f2, r = inr f2 →
         (downsample_audio params = true →
            ∃ q vec2, res = [EvResample q]
                      ∧ resample_audio lib f1 q = inr vec2
                      ∧ f2 = mkAudioFeatures (audio_file f1) (fs f1) vec2)
         ∧ ∃ vec2, f2 = mkAudioFeatures (audio_file f1) (fs f1) vec2).
Proof.
  unfold resample_step.
  destruct (downsample_audio params).
  - rewrite bind_eq. unfold lift at 1.
    destruct (truediv (sample_rate params) (downsample_factor params)) as [e|q] eqn:Hq.
    + exists [], (inl e). rewrite with_trace_nil. split; [done|]. split; [by left|done].
    + unfold call_resample_audio. rewrite !bind_eq, emit_with_trace. unfold lift.
      destruct (resample_audio lib f1 q) as [e|vec2] eqn:Hrs.
      * exists [EvResample q], (inl e). split; [done|]. split; [right; eauto|done].
      * exists [EvResample q], (inr (set_audio_vector f1 vec2)).
        split; [done|]. split; [right; eauto|].
        intros f2 [= <-]. split; [|by exists vec2]. intros _. by exists q, vec2.
  - exists [], (inr f1). unfold ret. rewrite with_trace_nil.
    split; [done|]. split; [by left|].
    intros f2 [= <-]. split; [done|]. exists (audio_vector f1). by destruct f1.
Qed.

(** A run of lines 56-68 that stopped before the first listed feature. *)
Ltac stopped_with trim res af :=
  exists trim, res, af, (@nil string); eexists;
  unfold with_trace; simpl; rewrite ?app_nil_r, <- ?app_assoc; simpl;
  (split; [reflexivity|]); (split; [by auto|]); (split; [by auto|]);
  (split; [apply prefix_nil|]); split; done.

(** The calls of lines 56-68, in the order they are made: the decoding,
    at most one trim, at most one resampling, then the listed features on
    the feature object as it is by then. *)
Lemma extract_listed_shape audio_path params w :
  ∃ trim res af done r,
    extract_listed lib audio_path params w
    = (with_trace w (EvLoad audio_path (sample_rate params)
                     :: trim ++ res ++ map (fun m => EvFeature m af) done), r)
    ∧ (trim = [] ∨ ∃ t, endtime params = Some t ∧ trim = [EvSlice t])
    ∧ (res = [] ∨ ∃ q, truediv (sample_rate params) (downsample_factor params) = inr q
                       ∧ res = [EvResample q])
    ∧ done `prefix_of` features params
    ∧ (done ≠ [] →
         (truthy_endtime (endtime params) = true → trim ≠ [])
         ∧ (downsample_audio params = true →
              ∃ q vec_in vec_out,
                res = [EvResample q]
                ∧ resample_audio lib
                    (mkAudioFeatures audio_path (sample_rate params) vec_in) q = inr vec_out
                ∧ af = mkAudioFeatures audio_path (sample_rate params) vec_out))
    ∧ (∀ d, r = inr d →
         done = features params
         ∧ dom d = list_to_set (features params)
         ∧ (truthy_endtime (endtime params) = true → trim ≠ [])
         ∧ (downsample_audio params = true → res ≠ [])).
Proof.
  unfold extract_listed. rewrite bind_eq, load_checked_spec.
  set (w1 := with_trace w [EvLoad audio_path (sample_rate params)]).
  set (dummy := mkAudioFeatures audio_path 0 ([] : list sample)).
  destruct (decode lib (w_fs w) audio_path (sample_rate params)) as [e|vec0] eqn:Hdec.
  { stopped_with (@nil (Event sample value)) (@nil (Event sample value)) dummy. }
  destruct (length vec0 =? 0)%nat eqn:Hlen.
  { stopped_with (@nil (Event sample value)) (@nil (Event sample value)) dummy. }
  rewrite bind_eq.
  destruct (trim_step_spec params (mkAudioFeatures audio_path (sample_rate params) vec0) w1)
    as (trim & r1 & -> & Htrim & Hr1).
  destruct r1 as [e|f1].
  { stopped_with trim (@nil (Event sample value)) dummy. }
  destruct (Hr1 f1 eq_refl) as (Htr & vec1 & ->). clear Hr1. cbn [audio_file fs].
  set (f1 := mkAudioFeatures audio_path (sample_rate params) vec1).
  rewrite bind_eq.
  destruct (resample_step_spec params f1 (with_trace w1 trim)) as (res & r2 & -> & Hres & Hr2).
  rewrite with_trace_app.
  destruct r2 as [e|f2].
  { stopped_with trim res dummy. }
  destruct (Hr2 f2 eq_refl) as (Hrs & vec2 & Hf2). clear Hr2. cbn [audio_file fs] in *.
  destruct (compute_listed_spec f2 (features params) ∅ (with_trace w1 (trim ++ res)))
    as (done & r & Hrun & Hpre & Hok).
  exists trim, res, f2, done, r. rewrite Hrun. subst w1. rewrite !with_trace_app. simpl.
  rewrite <- app_assoc.
  split; [done|]. split; [done|]. split; [done|]. split; [done|].
  split.
  - intros _. split; [done|]. intros Hd. destruct (Hrs Hd) as (q & vec2' & ? & ? & ?).
    exists q, vec1, vec2'. done.
  - intros d Hr. destruct (Hok d Hr) as [-> Hdom].
    split; [done|]. split; [by rewrite Hdom, dom_empty_L, (left_id_L ∅ (∪))|].
    split; [done|]. intros Hd. destruct (Hrs Hd) as (q & vec2' & -> & _). done.
Qed.

Lemma attach_reserved_eq audio_path params (d : gmap string (pyval value)) w :
  attach_reserved audio_path params d w
  = (w, match PyStr.index_from_end (PyStr.split audio_path) 2 with
        | Some label =>
            inr (<["label" := VStr label]>
                   (<["track_id" := VStr (PyStr.replace (PyStr.basename audio_path)
                                            (input_audio_format params) "")]> d))
        | None => inl IndexError
        end).
Proof.
  unfold attach_reserved, bind, lift, ret.
  by destruct (PyStr.index_from_end (PyStr.split audio_path) 2).
Qed.

Lemma compute_features_eq audio_path params w :
  compute_features lib audio_path params w
  = match extract_listed lib audio_path params w with
    | (w1, inr d) =>
        (w1, match PyStr.index_from_end (PyStr.split audio_path) 2 with
             | Some label =>
                 inr (<["label" := VStr label]>
                        (<["track_id" := VStr (PyStr.replace (PyStr.basename audio_path)
                                                 (input_audio_format params) "")]> d))
             | None => inl IndexError
             end)
    | (w1, inl e) => (w1, inl e)
    end.
Proof.
  unfold compute_features. rewrite bind_eq.
  destruct (extract_listed lib audio_path params w) as [w1 [e|d]]; [done|].
  apply attach_reserved_eq.
Qed.

Lemma feature_calls_app (a b : list (Event sample value)) :
  feature_calls (a ++ b) = feature_calls a ++ feature_calls b.
Proof. apply omap_app. Qed.

(** C6: when the decoded signal has length zero, [compute_features]
    raises the empty-or-invalid-audio [IOError]; the only call made is
    the decoding itself, so no feature capability has been invoked. *)
Theorem compute_features_empty_signal audio_path params w (vec : list sample) :
  decode lib (w_fs w) audio_path (sample_rate params) = inr vec →
  length vec = 0%nat →
  compute_features lib audio_path params w
  = (with_trace w [EvLoad audio_path (sample_rate params)],
     inl (IOError ("Empty or invalid audio recording file -" +:+ audio_path +:+ "-")))
  ∧ feature_calls (w_trace (fst (compute_features lib audio_path params w)))
    = feature_calls (w_trace w).
Proof.
  intros Hdec Hlen.
  assert (Hrun : compute_features lib audio_path params w
    = (with_trace w [EvLoad audio_path (sample_rate params)],
       inl (IOError ("Empty or invalid audio recording file -" +:+ audio_path +:+ "-")))).
  { rewrite compute_features_eq. unfold extract_listed.
    rewrite bind_eq, load_checked_spec, Hdec, Hlen. reflexivity. }
  split; [exact Hrun|].
  rewrite Hrun. simpl. rewrite feature_calls_app. simpl. apply app_nil_r.
Qed.





(** C10: for a path with fewer than two '/'-separated components,
    [compute_features] raises [IndexError] at the label once the audio
    has been decoded and every listed feature computed, and it never
    returns a mapping; a successful return therefore needs a '/'. *)
Theorem bare_filename_raises_IndexError audio_path params w :
  (length (PyStr.split audio_path) < 2)%nat →
  (∀ w1 d, extract_listed lib audio_path params w = (w1, inr d) →
     compute_features lib audio_path params w = (w1, inl IndexError))
  ∧ (∀ w' d, compute_features lib audio_path params w ≠ (w', inr d))
  ∧ PyStr.contains_slash audio_path = false.
Proof.
  intros Hshort.
  assert (Hidx : PyStr.index_from_end (PyStr.split audio_path) 2 = None)
    by by apply index_from_end_2_none.
  split; [|split].
  - intros w1 d Hrun. by rewrite compute_features_eq, Hrun, Hidx.
  - intros w' d. rewrite compute_features_eq, Hidx.
    by destruct (extract_listed lib audio_path params w) as [w1 [e|d0]].
  - by apply split_short_iff.
Qed.



End ExtractorFacts.

(** ** The list-driven runner *)

Section RunnerFacts.

Context {FS sample value : Type}.
Variable lib : FeatureLib FS sample value.
Variable sys : Platform FS value.

Implicit Types (w : World FS sample value) (params : Profile).

Lemma loads_app (a b : list (Event sample value)) : loads (a ++ b) = loads a ++ loads b.
Proof. apply omap_app. Qed.

Lemma saved_app (a b : list (Event sample value)) : saved (a ++ b) = saved a ++ saved b.
Proof. apply omap_app. Qed.

Lemma nexts_app (a b : list (Event sample value)) : nexts (a ++ b) = nexts a ++ nexts b.
Proof. apply omap_app. Qed.

Lemma feature_events_quiet (af : AudioFeatures sample) (names : list string) :
  loads (map (fun m => @EvFeature sample value m af) names) = []
  ∧ saved (map (fun m => @EvFeature sample value m af) names) = []
  ∧ nexts (map (fun m => @EvFeature sample value m af) names) = [].
Proof. induction names as [|m names IH]; [done|]. simpl. exact IH. Qed.

(** [compute_features] touches nothing but the trace, where it leaves the
    decoding of its file followed by calls on the feature object. *)
Lemma compute_features_frame audio_path params w :
  ∃ new r,
    compute_features lib audio_path params w
    = (with_trace w (EvLoad audio_path (sample_rate params) :: new), r)
    ∧ loads new = [] ∧ saved new = [] ∧ nexts new = [].
Proof.
  destruct (extract_listed_shape lib audio_path params w)
    as (trim & res & af & done & r0 & Hrun & Htrim & Hres & _).
  rewrite compute_features_eq, Hrun.
  exists (trim ++ res ++ map (fun m => EvFeature m af) done).
  eexists (match r0 with inl e => inl e | inr d => _ end).
  split; [destruct r0; reflexivity|].
  destruct (feature_events_quiet af done) as (Hl & Hs & Hn).
  rewrite !loads_app, !saved_app, !nexts_app, Hl, Hs, Hn.
  destruct Htrim as [->|(t & _ & ->)], Hres as [->|(q & _ & ->)]; done.
Qed.

(** The body of the [try]: one decoding, and an artifact exactly when it
    returns. *)
Lemma extract_and_save_spec feature_dir params song w :
  ∃ w' r new,
    extract_and_save lib sys feature_dir params song w = (w', r)
    ∧ w_trace w' = w_trace w ++ EvLoad song (sample_rate params) :: new
    ∧ w_errors w' = w_errors w ∧ w_log w' = w_log w ∧ w_tick w' = w_tick w
    ∧ loads new = [] ∧ nexts new = []
    ∧ length (saved new) = match r with inl _ => 0%nat | inr _ => 1%nat end.
Proof.
  unfold extract_and_save. rewrite bind_eq.
  destruct (compute_features_frame song params w) as (new & r & -> & Hl & Hs & Hn).
  destruct r as [e|d].
  { eexists _, _, new. split; [reflexivity|]. simpl. by rewrite Hs. }
  rewrite bind_eq. unfold lift at 1.
  destruct (PyStr.index_from_end (PyStr.split song) 2) as [work_id|]; simpl.
  2: { eexists _, _, new. split; [reflexivity|]. simpl. by rewrite Hs. }
  rewrite bind_eq. unfold read_fs at 1. simpl.
  set (work_dir := feature_dir +:+ work_id +:+ "/").
  set (target := work_dir +:+ _).
  set (w1 := with_trace w (EvLoad song (sample_rate params) :: new)).
  assert (Hdir : ∃ w2 r2 mk,
    (if negb (os_path_exists sys (w_fs w) work_dir)
     then bind (emit (EvMakedirs work_dir))
               (fun _ => on_fs (fun fs_ => os_makedirs sys fs_ work_dir))
     else ret tt) w1 = (w2, r2)
    ∧ w_trace w2 = w_trace w1 ++ mk
    ∧ w_errors w2 = w_errors w ∧ w_log w2 = w_log w ∧ w_tick w2 = w_tick w
    ∧ loads mk = [] ∧ nexts mk = [] ∧ saved mk = []).
  { destruct (negb (os_path_exists sys (w_fs w) work_dir)).
    - rewrite bind_eq, emit_with_trace. unfold on_fs. simpl.
      destruct (os_makedirs sys (w_fs w) work_dir) as [fs' r2].
      eexists _, r2, [EvMakedirs work_dir]. split; [reflexivity|]. done.
    - exists w1, (inr tt), []. unfold ret. simpl. by rewrite app_nil_r. }
  destruct Hdir as (w2 & r2 & mk & Hrun2 & Htr2 & He2 & Hlog2 & Htick2 & Hl2 & Hn2 & Hs2).
  rewrite bind_eq, Hrun2.
  destruct r2 as [e|[]].
  { exists w2, (inl e), (new ++ mk). split; [reflexivity|].
    rewrite Htr2. subst w1. simpl.
    rewrite <- app_assoc, loads_app, nexts_app, saved_app, Hl, Hn, Hs, Hl2, Hn2, Hs2.
    done. }
  rewrite bind_eq. unfold on_fs at 1.
  destruct (dd_io_save sys (w_fs w2) target _) as [fs' [e|[]]].
  - eexists _, (inl e), (new ++ mk). split; [reflexivity|]. simpl.
    rewrite Htr2. subst w1. simpl.
    rewrite <- app_assoc, loads_app, nexts_app, saved_app, Hl, Hn, Hs, Hl2, Hn2, Hs2.
    done.
  - rewrite emit_with_trace.
    eexists _, (inr tt), (new ++ mk ++ [EvSaved target _]). split; [reflexivity|]. simpl.
    rewrite Htr2. subst w1. simpl.
    rewrite <- !app_assoc, !loads_app, !nexts_app, !saved_app, Hl, Hn, Hs, Hl2, Hn2, Hs2.
    done.
Qed.

(** One turn of the loop never raises: a failure of the body is
    recorded as two elements of [_ERRORS] and the bar advances. *)
Lemma runner_step_spec input_txt_file feature_dir params song w :
  ∃ w' new,
    runner_step lib sys input_txt_file feature_dir params song w = (w', inr tt)
    ∧ w_trace w' = w_trace w ++ new
    ∧ w_tick w' = w_tick w
    ∧ loads new = [song] ∧ nexts new = [tt]
    ∧ w_errors w' = w_errors w
                    ++ flat_map (fun s => [input_txt_file; s])
                         (failures lib sys input_txt_file feature_dir params [song] w)
    ∧ (length (saved new)
       + length (failures lib sys input_txt_file feature_dir params [song] w) = 1)%nat.
Proof.
  unfold runner_step. simpl failures. rewrite app_nil_r.
  rewrite bind_eq. unfold try_except.
  destruct (extract_and_save_spec feature_dir params song w)
    as (w1 & r & new & Hrun & Htr & He & Hlog & Htick & Hl & Hn & Hs).
  rewrite Hrun. simpl snd. destruct r as [e|[]].
  - unfold record_failure, bind, errors_append, log_record, emit. simpl.
    eexists _, (EvLoad song (sample_rate params) :: new ++ [EvNext]).
    split; [reflexivity|]. simpl.
    rewrite Htr, He, Htick, loads_app, nexts_app, saved_app, Hl, Hn, length_app, Hs.
    simpl. rewrite <- !app_assoc. done.
  - rewrite emit_with_trace.
    eexists _, (EvLoad song (sample_rate params) :: new ++ [EvNext]).
    split; [reflexivity|]. simpl.
    rewrite Htr, He, Htick, loads_app, nexts_app, saved_app, Hl, Hn, length_app, Hs.
    simpl. rewrite <- !app_assoc, app_nil_r. done.
Qed.

(** The loop of lines 103-117 over [data]. *)
Lemma runner_loop_spec input_txt_file feature_dir params (data : list string) :
  ∀ w, ∃ w' new,
    for_each data (runner_step lib sys input_txt_file feature_dir params) w = (w', inr tt)
    ∧ w_trace w' = w_trace w ++ new
    ∧ w_tick w' = w_tick w
    ∧ loads new = data ∧ length (nexts new) = length data
    ∧ w_errors w' = w_errors w
                    ++ flat_map (fun s => [input_txt_file; s])
                         (failures lib sys input_txt_file feature_dir params data w)
    ∧ (length (saved new)
       + length (failures lib sys input_txt_file feature_dir params data w)
       = length data)%nat.
Proof.
  induction data as [|song rest IH]; intros w.
  - exists w, []. simpl. rewrite !app_nil_r. done.
  - simpl for_each. rewrite bind_eq.
    destruct (runner_step_spec input_txt_file feature_dir params song w)
      as (w1 & new1 & Hrun1 & Htr1 & Htick1 & Hl1 & Hn1 & He1 & Hs1).
    rewrite Hrun1.
    destruct (IH w1) as (w2 & new2 & Hrun2 & Htr2 & Htick2 & Hl2 & Hn2 & He2 & Hs2).
    exists w2, (new1 ++ new2). split; [exact Hrun2|].
    assert (Hw1 : fst (runner_step lib sys input_txt_file feature_dir params song w) = w1)
      by by rewrite Hrun1.
    simpl failures in *. rewrite app_nil_r in He1, Hs1. rewrite Hw1.
    rewrite Htr2, Htr1, Htick2, Htick1, He2, He1.
    rewrite loads_app, nexts_app, saved_app, Hl1, Hl2, Hn1, !length_app, Hn2.
    rewrite flat_map_app, <- !app_assoc. simpl.
    repeat split; try done. lia.
Qed.

(** Lines 92-102. *)
Lemma runner_prelude_eq input_txt_file w :
  runner_prelude sys input_txt_file w
  = let info := (INFO, Text ("Extracting features for " +:+ input_txt_file +:+ " ")) in
    let empty := "Empty collection txt file -" +:+ input_txt_file +:+ "- !" in
    match read_txt_file sys (w_fs w) input_txt_file with
    | inl e =>
        (mkWorld (w_fs w) (w_errors w) (w_log w ++ [info]) (w_trace w) (S (w_tick w)), inl e)
    | inr lines =>
        let data := List.filter (os_path_exists sys (w_fs w)) lines in
        if (length data <? 1)%nat
        then (mkWorld (w_fs w) (w_errors w) ((w_log w ++ [info]) ++ [(DEBUG, Text empty)])
                      (w_trace w) (S (w_tick w)),
              inl (IOError empty))
        else (mkWorld (w_fs w) (w_errors w) (w_log w ++ [info])
                      (w_trace w ++ [EvBar (length data)]) (S (w_tick w)),
              inr (time_monotonic sys (w_tick w), data))
    end.
Proof.
  unfold runner_prelude, bind, clock, log_record, read_fs, emit, raise, ret. simpl.
  destruct (read_txt_file sys (w_fs w) input_txt_file) as [e|lines]; [done|].
  simpl. by destruct (length (List.filter (os_path_exists sys (w_fs w)) lines) <? 1)%nat.
Qed.

(** Lines 118-119. *)
Lemma runner_finish_eq (start_time : Q) w :
  runner_finish sys start_time w
  = (mkWorld (w_fs w) (w_errors w)
             (w_log w ++ [(INFO, ProcessFinished (start_time - time_time sys (w_tick w))%Q)])
             (w_trace w ++ [EvFinish]) (S (w_tick w)),
     inr tt).
Proof. reflexivity. Qed.

(** A run that gets past the emptiness check: it returns, and what it
    leaves behind is what the loop leaves behind plus the summary. *)
Lemma runner_run_spec input_txt_file feature_dir params w w0 (start_time : Q)
    (data : list string) :
  runner_prelude sys input_txt_file w = (w0, inr (start_time, data)) →
  ∃ w' new,
    compute_features_from_list_file lib sys input_txt_file feature_dir params w
    = (w', inr tt)
    ∧ w_trace w' = w_trace w0 ++ new ++ [EvFinish]
    ∧ loads new = data ∧ length (nexts new) = length data
    ∧ w_errors w' = w_errors w0
                    ++ flat_map (fun s => [input_txt_file; s])
                         (failures lib sys input_txt_file feature_dir params data w0)
    ∧ (length (saved new)
       + length (failures lib sys input_txt_file feature_dir params data w0)
       = length data)%nat
    ∧ last (w_log w')
      = Some (INFO, ProcessFinished (start_time - time_time sys (w_tick w0))%Q).
Proof.
  intros Hpre. unfold compute_features_from_list_file.
  rewrite bind_eq, Hpre. simpl fst. simpl snd. rewrite bind_eq.
  destruct (runner_loop_spec input_txt_file feature_dir params data w0)
    as (w1 & new & Hrun & Htr & Htick & Hl & Hn & He & Hs).
  rewrite Hrun, runner_finish_eq.
  eexists _, new. split; [reflexivity|]. simpl.
  rewrite Htr, Htick, He, last_snoc, <- app_assoc. done.
Qed.

Lemma runner_prelude_inv input_txt_file w w0 (start_time : Q) (data : list string) :
  runner_prelude sys input_txt_file w = (w0, inr (start_time, data)) →
  ∃ lines,
    read_txt_file sys (w_fs w) input_txt_file = inr lines
    ∧ data = List.filter (os_path_exists sys (w_fs w)) lines
    ∧ data ≠ []
    ∧ start_time = time_monotonic sys (w_tick w)
    ∧ w_trace w0 = w_trace w ++ [EvBar (length data)]
    ∧ w_errors w0 = w_errors w
    ∧ w_tick w0 = S (w_tick w).
Proof.
  rewrite runner_prelude_eq. cbv zeta.
  destruct (read_txt_file sys (w_fs w) input_txt_file) as [e|lines]; [done|].
  destruct (length (List.filter (os_path_exists sys (w_fs w)) lines) <? 1)%nat eqn:Hlen;
    [done|].
  intros [= <- <- <-]. exists lines. simpl.
  repeat split; try done.
  intros Hnil. rewrite Hnil in Hlen. done.
Qed.

(** C9: when no line of the manifest exists, the runner raises the
    empty-manifest [IOError] and has made no call at all: the trace, and
    with it the list of feature computations, is as it was. *)
Theorem runner_empty_manifest input_txt_file feature_dir params w (lines : list string) :
  read_txt_file sys (w_fs w) input_txt_file = inr lines →
  List.filter (os_path_exists sys (w_fs w)) lines = [] →
  ∃ w',
    compute_features_from_list_file lib sys input_txt_file feature_dir params w
    = (w', inl (IOError ("Empty collection txt file -" +:+ input_txt_file +:+ "- !")))
    ∧ w_trace w' = w_trace w
    ∧ feature_calls (w_trace w') = feature_calls (w_trace w)
    ∧ loads (w_trace w') = loads (w_trace w)
    ∧ w_errors w' = w_errors w.
Proof.
  intros Hread Hnone.
  unfold compute_features_from_list_file.
  rewrite bind_eq, runner_prelude_eq, Hread. cbv zeta. rewrite Hnone. simpl.
  eexists. split; [reflexivity|]. done.
Qed.

(** C3, as the code has it: when exactly one of the N existing paths of
    a manifest fails, the runner writes N-1 artifacts, appends to
    [_ERRORS] exactly two elements, the manifest path and then the
    failing path, returns, and ends its log with the summary line. *)
Theorem runner_single_failure input_txt_file feature_dir params w w0 (start_time : Q)
    (data : list string) (bad : string) :
  runner_prelude sys input_txt_file w = (w0, inr (start_time, data)) →
  failures lib sys input_txt_file feature_dir params data w0 = [bad] →
  ∃ w' new,
    compute_features_from_list_file lib sys input_txt_file feature_dir params w
    = (w', inr tt)
    ∧ w_trace w' = w_trace w ++ new
    ∧ length (saved new) = (length data - 1)%nat
    ∧ w_errors w' = w_errors w ++ [input_txt_file; bad]
    ∧ last (w_log w')
      = Some (INFO, ProcessFinished (start_time - time_time sys (w_tick w0))%Q).
Proof.
  intros Hpre Hfail.
  destruct (runner_prelude_inv _ _ _ _ _ Hpre)
    as (lines & _ & _ & _ & _ & Htr0 & He0 & _).
  destruct (runner_run_spec input_txt_file feature_dir params w w0 start_time data Hpre)
    as (w' & new & Hrun & Htr & _ & _ & He & Hs & Hlog).
  rewrite Hfail in He, Hs. simpl in He, Hs.
  exists w', (EvBar (length data) :: new ++ [EvFinish]).
  split; [done|]. rewrite Htr, Htr0, <- app_assoc, He, He0.
  split; [done|]. split; [|split; [done|exact Hlog]].
  simpl. rewrite saved_app, length_app. simpl. lia.
Qed.

(** The number in the summary line: the monotonic reading taken at the
    start minus the wall-clock reading taken at the end. *)
Lemma runner_summary_value input_txt_file feature_dir params w w0 (start_time : Q)
    (data : list string) :
  runner_prelude sys input_txt_file w = (w0, inr (start_time, data)) →
  last (w_log (fst (compute_features_from_list_file lib sys input_txt_file
                      feature_dir params w)))
  = Some (INFO, ProcessFinished (time_monotonic sys (w_tick w)
                                 - time_time sys (S (w_tick w)))%Q).
Proof.
  intros Hpre.
  destruct (runner_prelude_inv _ _ _ _ _ Hpre) as (lines & _ & _ & _ & Hst & _ & _ & Htick).
  destruct (runner_run_spec input_txt_file feature_dir params w w0 start_time data Hpre)
    as (w' & new & Hrun & _ & _ & _ & _ & _ & Hlog).
  rewrite Hrun. simpl. by rewrite Hlog, Hst, Htick.
Qed.

End RunnerFacts.

(** ** The directory orchestrator *)

Section BatchFacts.

Context {FS sample value : Type}.
Variable lib : FeatureLib FS sample value.
Variable sys : Platform FS value.
Variable joblib_Parallel : Z → list (M FS sample value unit) → M FS sample value unit.

Implicit Types (w : World FS sample value).

Lemma zip3_constant {A B C} (l : list A) (b : B) (c : C) :
  ∀ i j, zip3 l (map (fun _ => b) (seq i (length l))) (map (fun _ => c) (seq j (length l)))
         = map (fun a => (a, b, c)) l.
Proof.
  induction l as [|a l IH]; intros i j; simpl; [done|]. by rewrite IH.
Qed.

(** Writing the manifest touches the file system only. *)
Lemma manifest_writes_frame (temp_name : string)
    (walk : list (string * list string * list string)) :
  ∀ w, ∃ fs' r,
    for_each walk (fun entry =>
      on_fs (fun fs_ => append_text sys fs_ temp_name (manifest_lines entry))) w
    = (mkWorld fs' (w_errors w) (w_log w) (w_trace w) (w_tick w), r).
Proof.
  induction walk as [|entry walk IH]; intros w.
  - exists (w_fs w), (inr tt). by destruct w.
  - simpl for_each. rewrite bind_eq. unfold on_fs at 1.
    destruct (append_text sys (w_fs w) temp_name (manifest_lines entry)) as [fs1 [e|[]]].
    + by exists fs1, (inl e).
    + apply (IH (mkWorld fs1 (w_errors w) (w_log w) (w_trace w) (w_tick w))).
Qed.

Lemma manifest_writes_eq (temp_name : string)
    (walk : list (string * list string * list string)) :
  ∀ w,
    for_each walk (fun entry =>
      on_fs (fun fs_ => append_text sys fs_ temp_name (manifest_lines entry))) w
    = (mkWorld (write_manifest sys temp_name walk (w_fs w)).1 (w_errors w) (w_log w)
               (w_trace w) (w_tick w),
       (write_manifest sys temp_name walk (w_fs w)).2).
Proof.
  induction walk as [|entry walk IH]; intros w.
  - by destruct w.
  - simpl for_each. rewrite bind_eq. unfold on_fs at 1. simpl write_manifest.
    destruct (append_text sys (w_fs w) temp_name (manifest_lines entry)) as [fs1 [e|[]]].
    + done.
    + by rewrite IH.
Qed.

(** C2, as the code has it: whatever [n_workers] is, when the temporary
    manifest [temp_name] has been made and the walk written to it, the
    orchestrator makes one parallel call, with [n_jobs = n_workers], over
    one runner invocation per path that [glob] returns for [temp_name] on
    the file system the writes left, each with that path, the same
    [feature_dir] and the same profile: a single invocation when that
    name matches only the manifest, whatever [n_workers]. *)
Theorem batch_dispatch_per_manifest audio_dir feature_dir (n_workers : Z)
    (extractor_profile : Profile) w (fs0 fs1 : FS) (temp_name : string) :
  named_temporary_file sys (w_fs w) "tmp" "./" = (fs0, inr temp_name) →
  write_manifest sys temp_name (os_walk sys fs0 audio_dir) fs0 = (fs1, inr tt) →
  ∃ w1 args,
    args = map (fun cpath => (cpath, feature_dir, extractor_profile))
               (glob_glob sys fs1 temp_name)
    ∧ w1 = mkWorld fs1 (w_errors w) (w_log w)
             (w_trace w
              ++ [EvPrint "Computing batch feature extraction using 'parallel' mode the profile: "])
             (w_tick w)
    ∧ batch_args sys audio_dir feature_dir extractor_profile w = (w1, inr args)
    ∧ batch_feature_extractor lib sys joblib_Parallel audio_dir feature_dir n_workers
        extractor_profile w
      = try_except
          (joblib_Parallel n_workers
             (map (fun '(cpath, fpath, param) =>
                     compute_features_from_list_file lib sys cpath fpath param) args))
          (fun _ => emit (EvPrint "Skipping extraction for a single file with unkown ID"))
          (with_trace w1 [EvDispatch n_workers args])
    ∧ dispatched (w_trace (with_trace w1 [EvDispatch n_workers args]))
      = dispatched (w_trace w) ++ [(n_workers, args)]
    ∧ length args = length (glob_glob sys fs1 temp_name)
    ∧ (glob_glob sys fs1 temp_name = [temp_name] →
       args = [(temp_name, feature_dir, extractor_profile)]).
Proof.
  intros Htemp Hwrite.
  assert (Hargs : batch_args sys audio_dir feature_dir extractor_profile w
    = (mkWorld fs1 (w_errors w) (w_log w)
         (w_trace w
          ++ [EvPrint "Computing batch feature extraction using 'parallel' mode the profile: "])
         (w_tick w),
       inr (map (fun cpath => (cpath, feature_dir, extractor_profile))
                (glob_glob sys fs1 temp_name)))).
  { unfold batch_args. rewrite bind_eq. unfold on_fs at 1. rewrite Htemp.
    rewrite bind_eq. unfold read_fs at 1. cbn [w_fs].
    rewrite bind_eq, manifest_writes_eq. cbn [w_fs w_errors w_log w_trace w_tick].
    rewrite Hwrite. cbn [fst snd].
    unfold bind, read_fs, emit, ret. simpl. by rewrite zip3_constant. }
  eexists _, _. split; [reflexivity|]. split; [reflexivity|]. split; [exact Hargs|].
  split; [|split; [|split]].
  - unfold batch_feature_extractor. rewrite bind_eq, Hargs.
    unfold try_except, Parallel. rewrite bind_eq, emit_with_trace. reflexivity.
  - unfold dispatched. simpl. rewrite !omap_app. simpl. by rewrite app_nil_r.
  - by rewrite length_map.
  - intros ->. done.
Qed.

End BatchFacts.

(** ** The default profile *)

(** C5, as the code has it: the default profile has sample rate 44100,
    downsampling off, no end time, and exactly four named features. *)
Theorem PROFILE_default :
  sample_rate PROFILE = 44100
  ∧ downsample_audio PROFILE = false
  ∧ endtime PROFILE = None
  ∧ truthy_endtime (endtime PROFILE) = false
  ∧ features PROFILE = ["hpcp"; "key_extractor"; "madmom_features"; "mfcc_htk"]
  ∧ length (features PROFILE) = 4%nat.
Proof. repeat split. Qed.

(** The feature list of the default profile does not have five names. *)
Lemma PROFILE_features_not_five : length (features PROFILE) ≠ 5%nat.
Proof. simpl. lia. Qed.

(** ** The statements on the concrete platform *)

(** C6 on the empty recording [song2.mp3]. *)
Lemma compute_features_empty_signal_demo :
  (Demo.decode Demo.disk "audio_dir/cliqueA/song2.mp3" 44100 = inr []
   ∧ length (@nil Z) = 0%nat)
  ∧ compute_features Demo.lib "audio_dir/cliqueA/song2.mp3" PROFILE Demo.boot
    = (with_trace Demo.boot [EvLoad "audio_dir/cliqueA/song2.mp3" 44100],
       inl (IOError "Empty or invalid audio recording file -audio_dir/cliqueA/song2.mp3-"))
  ∧ feature_calls
      (w_trace (fst (compute_features Demo.lib "audio_dir/cliqueA/song2.mp3" PROFILE
                       Demo.boot)))
    = feature_calls (w_trace Demo.boot).
Proof.
  split; [split; reflexivity|].
  apply (compute_features_empty_signal Demo.lib
           "audio_dir/cliqueA/song2.mp3" PROFILE Demo.boot []); reflexivity.
Defined.


(** The trace of that run, in full. *)
Example trimmed_run_trace :
  w_trace (fst (compute_features Demo.lib "audio_dir/cliqueA/song1.mp3" Demo.trimmed
                  Demo.boot))
  = [ EvLoad "audio_dir/cliqueA/song1.mp3" 4;
      EvSlice (1 # 2);
      EvResample (SpecFloat.S754_finite false 4503599627370496 (-51));
      EvFeature "hpcp" (mkAudioFeatures "audio_dir/cliqueA/song1.mp3" 4 [3]);
      EvFeature "madmom_features" (mkAudioFeatures "audio_dir/cliqueA/song1.mp3" 4 [3]) ].
Proof. vm_compute. reflexivity. Qed.

(** C10 on the bare filename [song4.mp3]. *)
Lemma bare_filename_raises_IndexError_demo :
  (length (PyStr.split "song4.mp3") < 2)%nat
  ∧ (∀ w1 d, extract_listed Demo.lib "song4.mp3" PROFILE Demo.boot = (w1, inr d) →
       compute_features Demo.lib "song4.mp3" PROFILE Demo.boot = (w1, inl IndexError))
  ∧ (∀ w' d, compute_features Demo.lib "song4.mp3" PROFILE Demo.boot ≠ (w', inr d))
  ∧ PyStr.contains_slash "song4.mp3" = false.
Proof.
  split; [simpl; lia|].
  apply (bare_filename_raises_IndexError Demo.lib "song4.mp3" PROFILE Demo.boot).
  simpl. lia.
Defined.

(** On that file the decoding and all four features succeed, and the
    error is the [IndexError] of the label. *)
Example bare_filename_run :
  (∃ w1 d, extract_listed Demo.lib "song4.mp3" PROFILE Demo.boot = (w1, inr d))
  ∧ snd (compute_features Demo.lib "song4.mp3" PROFILE Demo.boot) = inl IndexError
  ∧ feature_calls (w_trace (fst (compute_features Demo.lib "song4.mp3" PROFILE Demo.boot)))
    = features PROFILE.
Proof.
  split; [|split; vm_compute; reflexivity].
  eexists _, _. vm_compute. reflexivity.
Qed.



(** The two reserved values of that run. *)
Example song1_reserved_keys :
  ∃ d, snd (compute_features Demo.lib "audio_dir/cliqueA/song1.mp3" PROFILE Demo.boot) = inr d
       ∧ d !! "track_id" = Some (VStr "song1")
       ∧ d !! "label" = Some (VStr "cliqueA").
Proof. eexists. split; [vm_compute; reflexivity|]. split; vm_compute; reflexivity. Qed.

(** C9 on [gone.txt], whose only line does not exist. *)
Lemma runner_empty_manifest_demo :
  (read_txt_file Demo.sys (w_fs Demo.boot) "gone.txt" = inr ["audio_dir/cliqueZ/gone.mp3"]
   ∧ List.filter (os_path_exists Demo.sys (w_fs Demo.boot)) ["audio_dir/cliqueZ/gone.mp3"] = [])
  ∧ ∃ w',
      compute_features_from_list_file Demo.lib Demo.sys "gone.txt" "out/" PROFILE Demo.boot
      = (w', inl (IOError "Empty collection txt file -gone.txt- !"))
      ∧ w_trace w' = w_trace Demo.boot
      ∧ feature_calls (w_trace w') = feature_calls (w_trace Demo.boot)
      ∧ loads (w_trace w') = loads (w_trace Demo.boot)
      ∧ w_errors w' = w_errors Demo.boot.
Proof.
  split; [split; reflexivity|].
  apply (runner_empty_manifest Demo.lib Demo.sys "gone.txt" "out/" PROFILE Demo.boot
           ["audio_dir/cliqueZ/gone.mp3"]); reflexivity.
Defined.

(** C3 on [list.txt]: of the three existing files the empty [song2.mp3]
    fails. *)
Lemma runner_single_failure_demo :
  (runner_prelude Demo.sys "list.txt" Demo.boot
   = (fst (runner_prelude Demo.sys "list.txt" Demo.boot),
      inr (inject_Z 100,
           ["audio_dir/cliqueA/song1.mp3"; "audio_dir/cliqueA/song2.mp3";
            "audio_dir/cliqueB/song3.mp3"]))
   ∧ failures Demo.lib Demo.sys "list.txt" "out/" PROFILE
       ["audio_dir/cliqueA/song1.mp3"; "audio_dir/cliqueA/song2.mp3";
        "audio_dir/cliqueB/song3.mp3"]
       (fst (runner_prelude Demo.sys "list.txt" Demo.boot))
     = ["audio_dir/cliqueA/song2.mp3"])
  ∧ ∃ w' new,
      compute_features_from_list_file Demo.lib Demo.sys "list.txt" "out/" PROFILE Demo.boot
      = (w', inr tt)
      ∧ w_trace w' = w_trace Demo.boot ++ new
      ∧ length (saved new) = 2%nat
      ∧ w_errors w' = w_errors Demo.boot ++ ["list.txt"; "audio_dir/cliqueA/song2.mp3"]
      ∧ last (w_log w')
        = Some (INFO, ProcessFinished
                        (inject_Z 100
                         - time_time Demo.sys
                             (w_tick (fst (runner_prelude Demo.sys "list.txt" Demo.boot))))%Q).
Proof.
  split; [split; vm_compute; reflexivity|].
  apply (runner_single_failure Demo.lib Demo.sys "list.txt" "out/" PROFILE Demo.boot
           (fst (runner_prelude Demo.sys "list.txt" Demo.boot)) (inject_Z 100)
           ["audio_dir/cliqueA/song1.mp3"; "audio_dir/cliqueA/song2.mp3";
            "audio_dir/cliqueB/song3.mp3"]
           "audio_dir/cliqueA/song2.mp3");
    vm_compute; reflexivity.
Defined.

(** C3 as stated fails on that run: the single failure lengthens
    [_ERRORS] by two elements, not by one entry. *)
Lemma runner_failure_appends_two_elements :
  failures Demo.lib Demo.sys "list.txt" "out/" PROFILE
    ["audio_dir/cliqueA/song1.mp3"; "audio_dir/cliqueA/song2.mp3";
     "audio_dir/cliqueB/song3.mp3"]
    (fst (runner_prelude Demo.sys "list.txt" Demo.boot))
  = ["audio_dir/cliqueA/song2.mp3"]
  ∧ w_errors (fst (compute_features_from_list_file Demo.lib Demo.sys "list.txt" "out/"
                     PROFILE Demo.boot))
    = w_errors Demo.boot ++ ["list.txt"; "audio_dir/cliqueA/song2.mp3"]
  ∧ ¬ ∃ entry,
        w_errors (fst (compute_features_from_list_file Demo.lib Demo.sys "list.txt" "out/"
                         PROFILE Demo.boot))
        = w_errors Demo.boot ++ [entry].
Proof.
  split; [vm_compute; reflexivity|]. split; [vm_compute; reflexivity|].
  intros [entry Hentry]. vm_compute in Hentry. discriminate.
Qed.

(** C4 on that run: the number in the summary line is the monotonic
    reading at the start minus the wall-clock reading at the end.  With a
    monotonic clock at 100 s and a wall clock at 1700000001 s it is
    negative, and it is not the time that passed on the monotonic clock. *)
Theorem summary_subtracts_wall_clock_from_start :
  snd (compute_features_from_list_file Demo.lib Demo.sys "list.txt" "out/" PROFILE Demo.boot)
  = inr tt
  ∧ last (w_log (fst (compute_features_from_list_file Demo.lib Demo.sys "list.txt" "out/"
                        PROFILE Demo.boot)))
    = Some (INFO, ProcessFinished (time_monotonic Demo.sys 0 - time_time Demo.sys 1)%Q)
  ∧ (time_monotonic Demo.sys 0 - time_time Demo.sys 1 == - 1699999901)%Q
  ∧ (time_monotonic Demo.sys 0 - time_time Demo.sys 1 < 0)%Q
  ∧ ¬ (time_monotonic Demo.sys 0 - time_time Demo.sys 1
       == time_monotonic Demo.sys 1 - time_monotonic Demo.sys 0)%Q.
Proof.
  split; [vm_compute; reflexivity|]. split; [vm_compute; reflexivity|].
  split; [reflexivity|]. split; [reflexivity|]. intros H. vm_compute in H. discriminate.
Qed.

(** C2 on the audio directory of the concrete platform, with four
    workers: the manifest gets the four [.mp3] files below [audio_dir] and
    is the one path the glob returns. *)
Lemma batch_dispatch_per_manifest_demo :
  (named_temporary_file Demo.sys (w_fs Demo.boot) "tmp" "./"
   = ((Demo.named_temporary_file Demo.disk "tmp" "./").1, inr "./tmpk3x9_q1z")
   ∧ Demo.lookup
       (write_manifest Demo.sys "./tmpk3x9_q1z"
          (os_walk Demo.sys (Demo.named_temporary_file Demo.disk "tmp" "./").1 "audio_dir")
          (Demo.named_temporary_file Demo.disk "tmp" "./").1).1
       "./tmpk3x9_q1z"
     = Some (Demo.File [ "audio_dir/cliqueA/song1.mp3" +:+ PyStr.newline;
                         "audio_dir/cliqueA/song2.mp3" +:+ PyStr.newline;
                         "audio_dir/cliqueB/song3.mp3" +:+ PyStr.newline;
                         "audio_dir/cliqueB/a.mp3b.mp3" +:+ PyStr.newline ]))
  ∧ ∃ w1 args,
      args = [("./tmpk3x9_q1z", "out/", PROFILE)]
      ∧ batch_args Demo.sys "audio_dir" "out/" PROFILE Demo.boot = (w1, inr args)
      ∧ batch_feature_extractor Demo.lib Demo.sys Demo.joblib_Parallel "audio_dir" "out/" 4
          PROFILE Demo.boot
        = try_except
            (Demo.joblib_Parallel 4
               (map (fun '(cpath, fpath, param) =>
                       compute_features_from_list_file Demo.lib Demo.sys cpath fpath param)
                    args))
            (fun _ => emit (EvPrint "Skipping extraction for a single file with unkown ID"))
            (with_trace w1 [EvDispatch 4 args])
      ∧ dispatched (w_trace (with_trace w1 [EvDispatch 4 args]))
        = dispatched (w_trace Demo.boot) ++ [(4, args)].
Proof.
  split; [split; vm_compute; reflexivity|].
  destruct (batch_dispatch_per_manifest Demo.lib Demo.sys Demo.joblib_Parallel
              "audio_dir" "out/" 4 PROFILE Demo.boot
              (Demo.named_temporary_file Demo.disk "tmp" "./").1
              (write_manifest Demo.sys "./tmpk3x9_q1z"
                 (os_walk Demo.sys (Demo.named_temporary_file Demo.disk "tmp" "./").1
                    "audio_dir")
                 (Demo.named_temporary_file Demo.disk "tmp" "./").1).1
              "./tmpk3x9_q1z")
    as (w1 & args & Hargs & _ & Hprep & Hrun & Hdisp & _ & Hone).
  - vm_compute. reflexivity.
  - vm_compute. reflexivity.
  - exists w1, args. split; [apply Hone; vm_compute; reflexivity|].
    split; [exact Hprep|]. split; [exact Hrun|exact Hdisp].
Defined.

(** C2 as stated fails with four workers: the one parallel call carries a
    single runner invocation, and each file is decoded once. *)
Lemma batch_four_workers_one_invocation :
  dispatched
    (w_trace (fst (batch_feature_extractor Demo.lib Demo.sys Demo.joblib_Parallel
                     "audio_dir" "out/" 4 PROFILE Demo.boot)))
  = [(4, [("./tmpk3x9_q1z", "out/", PROFILE)])]
  ∧ length [("./tmpk3x9_q1z", "out/", PROFILE)] ≠ Z.to_nat 4
  ∧ loads
      (w_trace (fst (batch_feature_extractor Demo.lib Demo.sys Demo.joblib_Parallel
                       "audio_dir" "out/" 4 PROFILE Demo.boot)))
    = ["audio_dir/cliqueA/song1.mp3"; "audio_dir/cliqueA/song2.mp3";
       "audio_dir/cliqueB/song3.mp3"; "audio_dir/cliqueB/a.mp3b.mp3"].
Proof.
  split; [vm_compute; reflexivity|]. split; [simpl; lia|vm_compute; reflexivity].
Qed.

(** * Further properties *)

(** ** The feature loop and the reserved keys *)

Section ExtractorMore.

Context {FS sample value : Type}.
Variable lib : FeatureLib FS sample value.

Implicit Types (w : World FS sample value) (params : Profile).

(** A listed name that is no capability stops [compute_features] at its
    first use: the names before it have been computed, the ones after it
    are never invoked, and [AttributeError] is raised. *)
Theorem unknown_feature_stops_loop (feature : AudioFeatures sample)
    (before after : list string) (m : string) (d : gmap string (pyval value)) w :
  (∀ x, x ∈ before → ∃ f v, capability lib x = Some f ∧ f feature = inr v) →
  capability lib m = None →
  compute_listed lib feature (before ++ m :: after) d w
  = (with_trace w (map (fun x => EvFeature x feature) before), inl (AttributeError m)).
Proof.
  revert d w. induction before as [|x before IH]; intros d w Hbefore Hm; simpl.
  - rewrite bind_eq. unfold call_method. rewrite Hm. unfold raise.
    by rewrite with_trace_nil.
  - destruct (Hbefore x) as (f & v & Hf & Hv); [set_solver|].
    rewrite bind_eq. unfold call_method. rewrite Hf, bind_eq, emit_with_trace.
    unfold lift. rewrite Hv, IH; [|intros y Hy; apply Hbefore; set_solver|done].
    by rewrite with_trace_app.
Qed.

(** A capability that raises stops the loop as well: its exception leaves
    [compute_features] unchanged and the names after it are never
    invoked. *)
Theorem raising_feature_stops_loop (feature : AudioFeatures sample)
    (before after : list string) (m : string) (g : AudioFeatures sample → exn + value)
    (e : exn) (d : gmap string (pyval value)) w :
  (∀ x, x ∈ before → ∃ f v, capability lib x = Some f ∧ f feature = inr v) →
  capability lib m = Some g →
  g feature = inl e →
  compute_listed lib feature (before ++ m :: after) d w
  = (with_trace w (map (fun x => EvFeature x feature) (before ++ [m])), inl e).
Proof.
  revert d w. induction before as [|x before IH]; intros d w Hbefore Hm He; simpl.
  - rewrite bind_eq. unfold call_method. rewrite Hm, bind_eq, emit_with_trace.
    unfold lift. by rewrite He.
  - destruct (Hbefore x) as (f & v & Hf & Hv); [set_solver|].
    rewrite bind_eq. unfold call_method. rewrite Hf, bind_eq, emit_with_trace.
    unfold lift. rewrite Hv, IH; [|intros y Hy; apply Hbefore; set_solver|done|done].
    by rewrite with_trace_app.
Qed.

(** What the loop stores: every listed name holds the value its capability
    returned, and the other keys are left alone. *)
Lemma compute_listed_values (feature : AudioFeatures sample) (methods : list string) :
  ∀ (d d' : gmap string (pyval value)) w w',
    compute_listed lib feature methods d w = (w', inr d') →
    (∀ m, m ∈ methods →
       ∃ f v, capability lib m = Some f ∧ f feature = inr v ∧ d' !! m = Some (VFeat v))
    ∧ (∀ k, k ∉ methods → d' !! k = d !! k).
Proof.
  induction methods as [|m rest IH]; intros d d' w w'; simpl.
  - intros [= <- <-]. split; [intros m Hm; by apply elem_of_nil in Hm|done].
  - rewrite bind_eq. unfold call_method.
    destruct (capability lib m) as [f|] eqn:Hf; [|done].
    rewrite bind_eq, emit_with_trace. unfold lift.
    destruct (f feature) as [e|v] eqn:Hv; [done|].
    intros Hrun. destruct (IH _ _ _ _ Hrun) as [Hin Hout]. split.
    + intros x Hx. destruct (decide (x ∈ rest)) as [Hrest|Hrest]; [by apply Hin|].
      apply elem_of_cons in Hx as [->|Hx]; [|done].
      exists f, v. rewrite (Hout m Hrest), lookup_insert_eq. done.
    + intros k Hk. rewrite Hout by set_solver. apply lookup_insert_ne. set_solver.
Qed.

(** In the mapping [compute_features] returns, every requested name other
    than the two reserved keys holds the value of its capability on one and
    the same feature object, built for this file at the profile's sample
    rate. *)
Theorem compute_features_values audio_path params w w' (d : gmap string (pyval value)) :
  compute_features lib audio_path params w = (w', inr d) →
  ∃ af,
    audio_file af = audio_path ∧ fs af = sample_rate params
    ∧ ∀ m, m ∈ features params → m ≠ "track_id" → m ≠ "label" →
        ∃ f v, capability lib m = Some f ∧ f af = inr v ∧ d !! m = Some (VFeat v).
Proof.
  rewrite compute_features_eq. unfold extract_listed.
  rewrite bind_eq, load_checked_spec.
  destruct (decode lib (w_fs w) audio_path (sample_rate params)) as [e|vec0]; [done|].
  destruct (length vec0 =? 0)%nat; [done|].
  rewrite bind_eq.
  destruct (trim_step_spec lib params (mkAudioFeatures audio_path (sample_rate params) vec0)
              (with_trace w [EvLoad audio_path (sample_rate params)]))
    as (trim & r1 & -> & _ & Hr1).
  destruct r1 as [e|f1]; [done|].
  destruct (Hr1 f1 eq_refl) as (_ & vec1 & ->). cbn [audio_file fs].
  rewrite bind_eq.
  match goal with
  | |- context [resample_step lib params ?f ?w0] =>
      destruct (resample_step_spec lib params f w0) as (res & r2 & -> & _ & Hr2)
  end.
  destruct r2 as [e|f2]; [done|].
  destruct (Hr2 f2 eq_refl) as (_ & vec2 & ->). cbn [audio_file fs].
  match goal with
  | |- context [compute_listed lib ?f ?ms ?d0 ?w0] =>
      destruct (compute_listed lib f ms d0 w0) as [w3 [e|d0']] eqn:Hrun; [done|]
  end.
  destruct (compute_listed_values _ _ _ _ _ _ Hrun) as [Hin _].
  destruct (PyStr.index_from_end (PyStr.split audio_path) 2) as [label|]; [|done].
  intros [= <- <-].
  exists (mkAudioFeatures audio_path (sample_rate params) vec2).
  split; [done|]. split; [done|].
  intros m Hm Ht Hl. destruct (Hin m Hm) as (f & v & Hf & Hv & Hd).
  exists f, v. by rewrite !lookup_insert_ne.
Qed.

Lemma trim_step_off params (f0 : AudioFeatures sample) w :
  truthy_endtime (endtime params) = false → trim_step lib params f0 w = (w, inr f0).
Proof. intros H. unfold trim_step. by rewrite H. Qed.

Lemma resample_step_off params (f1 : AudioFeatures sample) w :
  downsample_audio params = false → resample_step lib params f1 w = (w, inr f1).
Proof. intros H. unfold resample_step. by rewrite H. Qed.

Lemma resample_step_zero params (f1 : AudioFeatures sample) w :
  downsample_audio params = true → downsample_factor params = 0 →
  resample_step lib params f1 w = (w, inl ZeroDivisionError).
Proof.
  intros Hd Hz. unfold resample_step. rewrite Hd, bind_eq. unfold lift, truediv.
  by rewrite Hz.
Qed.

(** With no end time to trim at and downsampling off, [compute_features]
    asks neither a trim nor a resampling of the feature object, and every
    feature it invokes sees the signal exactly as it was decoded. *)
Theorem features_on_decoded_signal audio_path params w (vec : list sample) :
  truthy_endtime (endtime params) = false →
  downsample_audio params = false →
  decode lib (w_fs w) audio_path (sample_rate params) = inr vec →
  ∃ done r,
    compute_features lib audio_path params w
    = (with_trace w
         (EvLoad audio_path (sample_rate params)
          :: map (fun m => EvFeature m (mkAudioFeatures audio_path (sample_rate params) vec))
                 done), r)
    ∧ done `prefix_of` features params
    ∧ (∀ d, r = inr d → done = features params).
Proof.
  intros Htrim Hdown Hdec.
  rewrite compute_features_eq. unfold extract_listed.
  rewrite bind_eq, load_checked_spec, Hdec.
  destruct (length vec =? 0)%nat.
  { exists [], (inl (IOError ("Empty or invalid audio recording file -"
                               +:+ audio_path +:+ "-"))).
    split; [done|]. split; [apply prefix_nil|done]. }
  rewrite bind_eq, trim_step_off, bind_eq, resample_step_off by done.
  match goal with
  | |- context [compute_listed lib ?f ?ms ?d0 ?w0] =>
      destruct (compute_listed_spec lib f ms d0 w0) as (done & r & -> & Hpre & Hok)
  end.
  rewrite with_trace_app. simpl.
  exists done.
  eexists (match r with inl e => inl e | inr d => _ end).
  split; [destruct r; reflexivity|]. split; [done|].
  intros d Hd. destruct r as [e|d0]; [done|]. by destruct (Hok d0 eq_refl).
Qed.

(** With downsampling on and a downsample factor of zero the division
    raises before the resampling is asked for: [compute_features] never
    returns a mapping, asks for no resampling and invokes no feature; when
    the audio decodes to a non-empty signal and there is no trim, the
    error is [ZeroDivisionError]. *)
Theorem zero_downsample_factor_raises audio_path params w :
  downsample_audio params = true →
  downsample_factor params = 0 →
  (∃ w' e new,
     compute_features lib audio_path params w = (w', inl e)
     ∧ w_trace w' = w_trace w ++ new
     ∧ feature_calls new = []
     ∧ ∀ q, EvResample q ∉ new)
  ∧ (∀ vec, decode lib (w_fs w) audio_path (sample_rate params) = inr vec →
            vec ≠ [] →
            truthy_endtime (endtime params) = false →
            compute_features lib audio_path params w
            = (with_trace w [EvLoad audio_path (sample_rate params)],
               inl ZeroDivisionError)).
Proof.
  intros Hdown Hzero. split.
  - rewrite compute_features_eq. unfold extract_listed.
    rewrite bind_eq, load_checked_spec.
    assert (Hload : ∀ e : exn,
      ∃ w' e' new,
        (with_trace w [EvLoad audio_path (sample_rate params)],
         @inl exn (gmap string (pyval value)) e) = (w', inl e')
        ∧ w_trace w' = w_trace w ++ new ∧ feature_calls new = []
        ∧ ∀ q, EvResample q ∉ new).
    { intros e. eexists _, _, [EvLoad audio_path (sample_rate params)].
      split; [reflexivity|]. split; [done|]. split; [done|]. set_solver. }
    destruct (decode lib (w_fs w) audio_path (sample_rate params)) as [e|vec0]; [apply Hload|].
    destruct (length vec0 =? 0)%nat; [apply Hload|].
    rewrite bind_eq.
    destruct (trim_step_spec lib params (mkAudioFeatures audio_path (sample_rate params) vec0)
                (with_trace w [EvLoad audio_path (sample_rate params)]))
      as (trim & r1 & -> & Htrim & _).
    rewrite with_trace_app.
    assert (Hquiet : feature_calls (EvLoad audio_path (sample_rate params) :: trim) = []
                     ∧ ∀ q, EvResample q ∉ EvLoad audio_path (sample_rate params) :: trim).
    { destruct Htrim as [->|(t & _ & ->)]; split; try done; set_solver. }
    destruct r1 as [e|f1].
    + eexists _, e, _. split; [reflexivity|]. split; [reflexivity|]. exact Hquiet.
    + rewrite bind_eq, resample_step_zero by done.
      eexists _, ZeroDivisionError, _. split; [reflexivity|]. split; [reflexivity|].
      exact Hquiet.
  - intros vec Hdec Hvec Htrim.
    rewrite compute_features_eq. unfold extract_listed.
    rewrite bind_eq, load_checked_spec, Hdec.
    destruct vec as [|x vec]; [done|]. simpl.
    by rewrite bind_eq, trim_step_off, bind_eq, resample_step_zero.
Qed.

(** An end time of zero counts as no end time: the run is the one of the
    same profile without an end time, so nothing is trimmed. *)
Theorem zero_endtime_is_no_trim audio_path params (t : Q) w :
  endtime params = Some t →
  (t == 0)%Q →
  compute_features lib audio_path params w
  = compute_features lib audio_path (with_endtime params None) w.
Proof.
  intros Het Hzero.
  assert (Hfalse : truthy_endtime (endtime params) = false).
  { rewrite Het. simpl. apply negb_false_iff. by apply Qeq_bool_iff. }
  rewrite !compute_features_eq. unfold extract_listed.
  rewrite !bind_eq, !load_checked_spec. cbn [with_endtime sample_rate input_audio_format features].
  destruct (decode lib (w_fs w) audio_path (sample_rate params)) as [e|vec]; [done|].
  destruct (length vec =? 0)%nat; [done|].
  rewrite !bind_eq, !trim_step_off by done.
  rewrite !bind_eq. unfold resample_step.
  cbn [with_endtime downsample_audio sample_rate downsample_factor]. done.
Qed.

Lemma app_string_assoc (a b c : string) : (a +:+ b) +:+ c = a +:+ (b +:+ c).
Proof.
  induction a as [|x a IH]; [reflexivity|].
  change (String x ((a +:+ b) +:+ c) = String x (a +:+ (b +:+ c))). by rewrite IH.
Qed.

Lemma contains_slash_app (a b : string) :
  PyStr.contains_slash (a +:+ b) = PyStr.contains_slash a || PyStr.contains_slash b.
Proof. induction a as [|c a IH]; simpl; [done|]. by rewrite IH, orb_assoc. Qed.

(** For a file [<root>/<clique>/<stem><suffix>] whose name holds the
    input-format string only as its suffix, the mapping [compute_features]
    returns has the stem as 'track_id' and the clique as 'label'. *)
Theorem reserved_keys_of_clique_path (root clique stem : string) params w w'
    (d : gmap string (pyval value)) :
  PyStr.contains_slash clique = false →
  PyStr.contains_slash stem = false →
  PyStr.contains_slash (input_audio_format params) = false →
  input_audio_format params ≠ "" →
  (∀ i, (i < String.length stem)%nat →
        PyStr.startswith (PyStr.drop i (stem +:+ input_audio_format params))
          (input_audio_format params) = false) →
  compute_features lib
    (root +:+ String PyStr.slash
       (clique +:+ String PyStr.slash (stem +:+ input_audio_format params)))
    params w = (w', inr d) →
  d !! "track_id" = Some (VStr stem) ∧ d !! "label" = Some (VStr clique).
Proof.
  intros Hc Hs Hf Hne Honly.
  assert (Hfile : PyStr.contains_slash (stem +:+ input_audio_format params) = false)
    by by rewrite contains_slash_app, Hs, Hf.
  rewrite compute_features_eq.
  destruct (extract_listed lib _ params w) as [w1 [e|d0]]; [done|].
  destruct (label_of_clique_path clique _ Hc Hfile) as [_ Hlabel].
  rewrite (Hlabel root).
  replace (root +:+ String PyStr.slash
             (clique +:+ String PyStr.slash (stem +:+ input_audio_format params)))
    with ((root +:+ String PyStr.slash clique)
          +:+ String PyStr.slash (stem +:+ input_audio_format params)).
  2: { apply app_string_assoc. }
  rewrite (basename_app_slash _ _ Hfile), (replace_only_suffix _ _ Hne Honly).
  intros [= <- <-]. split.
  - rewrite lookup_insert_ne by done. apply lookup_insert_eq.
  - apply lookup_insert_eq.
Qed.

End ExtractorMore.

(** ** Artifacts, failures and the log of a run *)

Section RunnerMore.

Context {FS sample value : Type}.
Variable lib : FeatureLib FS sample value.
Variable sys : Platform FS value.

Implicit Types (w : World FS sample value) (params : Profile).

Lemma artifacts_app (a b : list (Event sample value)) :
  artifacts (a ++ b) = artifacts a ++ artifacts b.
Proof. apply omap_app. Qed.

Lemma makedirs_calls_app (a b : list (Event sample value)) :
  makedirs_calls (a ++ b) = makedirs_calls a ++ makedirs_calls b.
Proof. apply omap_app. Qed.

Lemma feature_events_no_files (af : AudioFeatures sample) (names : list string) :
  artifacts (map (fun m => @EvFeature sample value m af) names) = []
  ∧ makedirs_calls (map (fun m => @EvFeature sample value m af) names) = [].
Proof. induction names as [|m names IH]; [done|]. simpl. exact IH. Qed.

(** What [compute_features] adds to the trace has no file operation in
    it, and a mapping it returns carries the label and the track id of its
    path. *)
Lemma compute_features_events audio_path params w :
  ∃ cf r,
    compute_features lib audio_path params w = (with_trace w cf, r)
    ∧ artifacts cf = [] ∧ makedirs_calls cf = []
    ∧ saved cf = [] ∧ nexts cf = []
    ∧ (PyStr.index_from_end (PyStr.split audio_path) 2 = None → ∃ e, r = inl e)
    ∧ (∀ d, r = inr d →
         ∃ clique,
           PyStr.index_from_end (PyStr.split audio_path) 2 = Some clique
           ∧ d !! "label" = Some (VStr clique)
           ∧ d !! "track_id"
             = Some (VStr (PyStr.replace (PyStr.basename audio_path)
                             (input_audio_format params) ""))).
Proof.
  destruct (extract_listed_shape lib audio_path params w)
    as (trim & res & af & done & r0 & Hrun & Htrim & Hres & _).
  rewrite compute_features_eq, Hrun.
  destruct (feature_events_no_files af done) as [Ha Hm].
  destruct (feature_events_quiet (value:=value) af done) as (_ & Hs & Hn).
  eexists _, (match r0 with inl e => inl e | inr d => _ end).
  split; [destruct r0; reflexivity|].
  split; [|split; [|split; [|split; [|split]]]].
  - simpl. rewrite !artifacts_app, Ha.
    by destruct Htrim as [->|(t & _ & ->)], Hres as [->|(q & _ & ->)].
  - simpl. rewrite !makedirs_calls_app, Hm.
    by destruct Htrim as [->|(t & _ & ->)], Hres as [->|(q & _ & ->)].
  - simpl. rewrite !saved_app, Hs.
    by destruct Htrim as [->|(t & _ & ->)], Hres as [->|(q & _ & ->)].
  - simpl. rewrite !nexts_app, Hn.
    by destruct Htrim as [->|(t & _ & ->)], Hres as [->|(q & _ & ->)].
  - intros Hidx. rewrite Hidx. destruct r0; eauto.
  - intros d Hd. destruct r0 as [e|d0]; [done|].
    destruct (PyStr.index_from_end (PyStr.split audio_path) 2) as [clique|]; [|done].
    injection Hd as <-. exists clique. split; [done|].
    split; [apply lookup_insert_eq|].
    rewrite lookup_insert_ne by done. apply lookup_insert_eq.
Qed.

(** The events of the body of the [try], in order: those of
    [compute_features], at most one [os.makedirs], on the clique's
    directory and only when it is absent, and the artifact when the body
    returns. *)
Lemma extract_and_save_events feature_dir params song w :
  ∃ cf r0 mk sv w' r,
    compute_features lib song params w = (with_trace w cf, r0)
    ∧ extract_and_save lib sys feature_dir params song w = (w', r)
    ∧ w_trace w' = w_trace w ++ cf ++ mk ++ sv
    ∧ w_log w' = w_log w ∧ w_errors w' = w_errors w
    ∧ artifacts cf = [] ∧ makedirs_calls cf = []
    ∧ (mk = []
       ∨ ∃ clique,
           PyStr.index_from_end (PyStr.split song) 2 = Some clique
           ∧ os_path_exists sys (w_fs w) (feature_dir +:+ clique +:+ "/") = false
           ∧ mk = [EvMakedirs (feature_dir +:+ clique +:+ "/")])
    ∧ (∀ e, r0 = inl e → r = inl e ∧ mk = [] ∧ sv = [])
    ∧ ((sv = [] ∧ ∃ e, r = inl e)
       ∨ ∃ d clique,
           r0 = inr d ∧ r = inr tt
           ∧ d !! "label" = Some (VStr clique)
           ∧ d !! "track_id"
             = Some (VStr (PyStr.replace (PyStr.basename song)
                             (input_audio_format params) ""))
           ∧ sv = [EvSaved (artifact_path feature_dir clique
                              (PyStr.replace (PyStr.basename song)
                                 (input_audio_format params) "")) d]).
Proof.
  destruct (compute_features_events song params w)
    as (cf & r0 & Hcf & Ha & Hm & _ & _ & _ & Hkeys).
  exists cf, r0. unfold extract_and_save. rewrite bind_eq, Hcf.
  destruct r0 as [e|d].
  { exists [], [], (with_trace w cf), (inl e). simpl. rewrite app_nil_r.
    repeat (split; [done|]). split; [by left|]. split; [by intros ? [= <-]|].
    left. eauto. }
  destruct (Hkeys d eq_refl) as (clique & Hidx & Hlabel & Htrack).
  rewrite bind_eq. unfold lift at 1. rewrite Hidx. simpl from_option. cbv beta iota.
  rewrite bind_eq. unfold read_fs at 1. cbv beta iota.
  change (w_fs (with_trace w cf)) with (w_fs w).
  set (work_dir := feature_dir +:+ clique +:+ "/").
  set (w1 := with_trace w cf).
  assert (Hdir : ∃ w2 r2 mk,
    (if negb (os_path_exists sys (w_fs w) work_dir)
     then bind (emit (EvMakedirs work_dir))
               (fun _ => on_fs (fun fs_ => os_makedirs sys fs_ work_dir))
     else ret tt) w1 = (w2, r2)
    ∧ w_trace w2 = w_trace w1 ++ mk ∧ w_log w2 = w_log w ∧ w_errors w2 = w_errors w
    ∧ (mk = [] ∨ (os_path_exists sys (w_fs w) work_dir = false
                  ∧ mk = [EvMakedirs work_dir]))).
  { destruct (os_path_exists sys (w_fs w) work_dir) eqn:Hex.
    - exists w1, (inr tt), []. unfold ret. simpl. rewrite app_nil_r. auto 10.
    - unfold bind, emit, on_fs. simpl.
      destruct (os_makedirs sys (w_fs w) work_dir) as [fs' r2].
      eexists _, r2, [EvMakedirs work_dir]. split; [reflexivity|]. auto 10. }
  destruct Hdir as (w2 & r2 & mk & Hrun2 & Htr2 & Hlog2 & Herr2 & Hmk).
  rewrite bind_eq, Hrun2.
  destruct r2 as [e|[]].
  { exists mk, [], w2, (inl e). rewrite Htr2, Hlog2, Herr2. subst w1. simpl.
    rewrite <- ?app_assoc, ?app_nil_r.
    do 7 (split; [done|]). split; [destruct Hmk as [->|[Hex ->]]; [by left|right; by exists clique]|]. split; [done|]. left. eauto. }
  rewrite bind_eq. unfold on_fs at 1.
  match goal with
  | |- context [dd_io_save sys ?f ?t ?dd] =>
      destruct (dd_io_save sys f t dd) as [fs' [e|[]]]
  end.
  - eexists mk, [], _, (inl e). split; [reflexivity|]. split; [reflexivity|]. simpl.
    rewrite Htr2, Hlog2, Herr2. subst w1. simpl. rewrite <- ?app_assoc, ?app_nil_r.
    do 5 (split; [done|]). split; [destruct Hmk as [->|[Hex ->]]; [by left|right; by exists clique]|]. split; [done|]. left. eauto.
  - rewrite emit_with_trace.
    eexists mk, _, _, (inr tt). split; [reflexivity|]. split; [reflexivity|]. simpl.
    rewrite Htr2, Hlog2, Herr2. subst w1. simpl. rewrite <- !app_assoc.
    do 5 (split; [done|]). split; [destruct Hmk as [->|[Hex ->]]; [by left|right; by exists clique]|]. split; [done|]. right.
    exists d, clique. done.
Qed.

(** [os.makedirs] is asked for at most once per file, for the directory
    of the file's clique under [feature_dir], and only when that directory
    is absent when the features have been computed. *)
Theorem makedirs_only_when_absent feature_dir params song w :
  ∃ new,
    w_trace (fst (extract_and_save lib sys feature_dir params song w)) = w_trace w ++ new
    ∧ (makedirs_calls new = []
       ∨ ∃ clique,
           PyStr.index_from_end (PyStr.split song) 2 = Some clique
           ∧ os_path_exists sys (w_fs w) (feature_dir +:+ clique +:+ "/") = false
           ∧ makedirs_calls new = [feature_dir +:+ clique +:+ "/"]).
Proof.
  destruct (extract_and_save_events feature_dir params song w)
    as (cf & r0 & mk & sv & w' & r & _ & Hrun & Htr & _ & _ & _ & Hm & Hmk & _ & Hsv).
  exists (cf ++ mk ++ sv). rewrite Hrun. split; [exact Htr|].
  assert (Hnone : makedirs_calls sv = []).
  { destruct Hsv as [[-> _]|(d & clique & _ & _ & _ & _ & ->)]; done. }
  rewrite !makedirs_calls_app, Hm, Hnone, app_nil_r. simpl.
  destruct Hmk as [->|(clique & Hidx & Hex & ->)]; [by left|].
  right. by exists clique.
Qed.

(** One turn of the loop writes at most one artifact, and writes it where
    the 'label' and the 'track_id' stored in it say. *)
Lemma runner_step_artifacts input_txt_file feature_dir params song w :
  ∃ new,
    w_trace (fst (runner_step lib sys input_txt_file feature_dir params song w))
    = w_trace w ++ new
    ∧ Forall (stored_under_keys feature_dir) (artifacts new).
Proof.
  destruct (extract_and_save_events feature_dir params song w)
    as (cf & r0 & mk & sv & w' & r & _ & Hrun & Htr & _ & _ & Ha & _ & Hmk & _ & Hsv).
  exists ((cf ++ mk ++ sv) ++ [EvNext]).
  unfold runner_step. rewrite bind_eq. unfold try_except. rewrite Hrun.
  split.
  - destruct r as [e|[]]; simpl; rewrite Htr, <- !app_assoc; done.
  - rewrite !artifacts_app, Ha. simpl. rewrite app_nil_r.
    assert (Hnone : artifacts mk = [])
      by (destruct Hmk as [->|(clique & _ & _ & ->)]; done).
    rewrite Hnone. simpl.
    destruct Hsv as [[-> _]|(d & clique & _ & _ & Hl & Ht & ->)]; simpl; [done|].
    apply Forall_cons. split; [|done]. by eexists _, _.
Qed.

Lemma runner_loop_artifacts input_txt_file feature_dir params (data : list string) :
  ∀ w, ∃ new,
    w_trace (fst (for_each data (runner_step lib sys input_txt_file feature_dir params) w))
    = w_trace w ++ new
    ∧ Forall (stored_under_keys feature_dir) (artifacts new).
Proof.
  induction data as [|song rest IH]; intros w.
  - exists []. simpl. by rewrite app_nil_r.
  - simpl for_each. rewrite bind_eq.
    destruct (runner_step_artifacts input_txt_file feature_dir params song w)
      as (new1 & Htr1 & Hall1).
    destruct (runner_step lib sys input_txt_file feature_dir params song w)
      as [w1 [e|[]]].
    + exists new1. done.
    + destruct (IH w1) as (new2 & Htr2 & Hall2).
      exists (new1 ++ new2). simpl in Htr1. rewrite Htr2, Htr1, <- app_assoc.
      split; [done|]. rewrite artifacts_app. by apply Forall_app.
Qed.

Lemma runner_prelude_trace input_txt_file w :
  ∃ bar,
    w_trace (fst (runner_prelude sys input_txt_file w)) = w_trace w ++ bar
    ∧ artifacts bar = [] ∧ makedirs_calls bar = [] ∧ loads bar = [].
Proof.
  rewrite runner_prelude_eq. cbv zeta.
  destruct (read_txt_file sys (w_fs w) input_txt_file) as [e|lines].
  { exists []. simpl. by rewrite app_nil_r. }
  destruct (length (List.filter (os_path_exists sys (w_fs w)) lines) <? 1)%nat.
  - exists []. simpl. by rewrite app_nil_r.
  - by eexists [_].
Qed.

(** Every artifact a run of the runner writes lies at
    [feature_dir + label + "/" + track_id + ".h5"] for the 'label' and the
    'track_id' stored in it; [feature_dir] is prepended as it is, without a
    separator. *)
Theorem artifacts_stored_under_their_keys input_txt_file feature_dir params w :
  ∃ new,
    w_trace (fst (compute_features_from_list_file lib sys input_txt_file feature_dir
                    params w))
    = w_trace w ++ new
    ∧ Forall (stored_under_keys feature_dir) (artifacts new).
Proof.
  unfold compute_features_from_list_file. rewrite bind_eq.
  destruct (runner_prelude_trace input_txt_file w) as (bar & Htr0 & Hbar & _).
  destruct (runner_prelude sys input_txt_file w) as [w0 [e|[start_time data]]].
  { exists bar. simpl in *. rewrite Htr0, Hbar. done. }
  simpl in Htr0. cbn [fst snd]. rewrite bind_eq.
  destruct (runner_loop_artifacts input_txt_file feature_dir params data w0)
    as (new & Htr & Hall).
  destruct (for_each data (runner_step lib sys input_txt_file feature_dir params) w0)
    as [w1 [e|[]]].
  - exists (bar ++ new). simpl in *. rewrite Htr, Htr0, <- app_assoc.
    split; [done|]. by rewrite artifacts_app, Hbar.
  - rewrite runner_finish_eq. exists (bar ++ new ++ [EvFinish]). simpl in *.
    rewrite Htr, Htr0, <- !app_assoc. split; [done|].
    rewrite !artifacts_app, Hbar. simpl. by rewrite app_nil_r.
Qed.

(** A file whose extraction raises is skipped by the loop: the manifest
    path and the file's path are appended to [_ERRORS], the skip is
    logged, nothing is written and no directory is made. *)
Lemma failed_extraction_is_recorded input_txt_file feature_dir params song w (e : exn) :
  snd (compute_features lib song params w) = inl e →
  ∃ w' new,
    runner_step lib sys input_txt_file feature_dir params song w = (w', inr tt)
    ∧ w_errors w' = w_errors w ++ [input_txt_file; song]
    ∧ w_log w' = w_log w ++ [skip_record song]
    ∧ w_trace w' = w_trace w ++ new
    ∧ artifacts new = [] ∧ makedirs_calls new = [].
Proof.
  intros Hfail.
  destruct (extract_and_save_events feature_dir params song w)
    as (cf & r0 & mk & sv & w1 & r & Hcf & Hrun & Htr & Hlog & Herr & Ha & Hm & _ & Hr0 & _).
  rewrite Hcf in Hfail. simpl in Hfail. destruct (Hr0 e Hfail) as (-> & -> & ->).
  unfold runner_step. rewrite bind_eq. unfold try_except. rewrite Hrun.
  unfold record_failure, bind, errors_append, log_record, emit. simpl.
  eexists _, (cf ++ [EvNext]). split; [reflexivity|]. simpl.
  rewrite Htr, Hlog, Herr, !app_nil_r, <- !app_assoc, artifacts_app, makedirs_calls_app, Ha, Hm.
  done.
Qed.

(** A manifest line without a '/' can never yield an artifact: whatever
    the audio, the loop records it in [_ERRORS] and moves on. *)
Theorem bare_filename_in_manifest_is_skipped input_txt_file feature_dir params song w :
  PyStr.contains_slash song = false →
  ∃ w' new,
    runner_step lib sys input_txt_file feature_dir params song w = (w', inr tt)
    ∧ w_errors w' = w_errors w ++ [input_txt_file; song]
    ∧ w_log w' = w_log w ++ [skip_record song]
    ∧ w_trace w' = w_trace w ++ new
    ∧ artifacts new = [] ∧ makedirs_calls new = [].
Proof.
  intros Hbare.
  destruct (compute_features_events song params w) as (cf & r & Hcf & _ & _ & _ & _ & Hnone & _).
  destruct Hnone as [e He].
  { apply index_from_end_2_none. by apply split_short_iff. }
  apply (failed_extraction_is_recorded _ _ _ _ _ e). by rewrite Hcf, He.
Qed.

(** A recording that decodes to an empty signal is skipped in the same
    way: two elements more in [_ERRORS], the skip logged, no artifact, and
    no feature computed on it. *)
Theorem empty_recording_in_manifest_is_skipped input_txt_file feature_dir params song w :
  decode lib (w_fs w) song (sample_rate params) = inr [] →
  ∃ w' new,
    runner_step lib sys input_txt_file feature_dir params song w = (w', inr tt)
    ∧ w_errors w' = w_errors w ++ [input_txt_file; song]
    ∧ w_log w' = w_log w ++ [skip_record song]
    ∧ w_trace w' = w_trace w ++ new
    ∧ artifacts new = [] ∧ makedirs_calls new = []
    ∧ feature_calls new = [].
Proof.
  intros Hdec.
  assert (Hrun : compute_features lib song params w
    = (with_trace w [EvLoad song (sample_rate params)],
       inl (IOError ("Empty or invalid audio recording file -" +:+ song +:+ "-")))).
  { rewrite compute_features_eq. unfold extract_listed.
    by rewrite bind_eq, load_checked_spec, Hdec. }
  destruct (extract_and_save_events feature_dir params song w)
    as (cf & r0 & mk & sv & w1 & r & Hcf & Hsave & Htr & Hlog & Herr & Ha & Hm & _ & Hr0 & _).
  rewrite Hrun in Hcf. injection Hcf as Hcf <-.
  assert (cf = [EvLoad song (sample_rate params)]) as ->.
  { by apply app_inv_head in Hcf. }
  destruct (Hr0 _ eq_refl) as (-> & -> & ->).
  unfold runner_step. rewrite bind_eq. unfold try_except. rewrite Hsave.
  unfold record_failure, bind, errors_append, log_record, emit. simpl.
  eexists _, [EvLoad song (sample_rate params); EvNext]. split; [reflexivity|]. simpl.
  rewrite Htr, Hlog, Herr. simpl. rewrite <- !app_assoc. done.
Qed.

Lemma failures_sublist input_txt_file feature_dir params (data : list string) :
  ∀ w, failures lib sys input_txt_file feature_dir params data w `sublist_of` data.
Proof.
  induction data as [|song rest IH]; intros w; simpl; [done|].
  destruct (snd (extract_and_save lib sys feature_dir params song w)); simpl.
  - by apply sublist_skip.
  - by apply sublist_cons.
Qed.

(** The account of a run that gets past the emptiness check, whatever the
    number of failures: it returns; the failed paths are some of the
    manifest's existing paths, in manifest order; [_ERRORS] gains the
    manifest path and the failed path for each of them, in that order; and
    artifacts written plus failures make up the paths processed. *)
Theorem runner_error_accounting input_txt_file feature_dir params w w0 (start_time : Q)
    (data : list string) :
  runner_prelude sys input_txt_file w = (w0, inr (start_time, data)) →
  ∃ w' new,
    compute_features_from_list_file lib sys input_txt_file feature_dir params w
    = (w', inr tt)
    ∧ w_trace w' = w_trace w ++ new
    ∧ failures lib sys input_txt_file feature_dir params data w0 `sublist_of` data
    ∧ w_errors w' = w_errors w
                    ++ flat_map (fun song => [input_txt_file; song])
                         (failures lib sys input_txt_file feature_dir params data w0)
    ∧ (length (saved new)
       + length (failures lib sys input_txt_file feature_dir params data w0)
       = length data)%nat.
Proof.
  intros Hpre.
  destruct (runner_prelude_inv sys _ _ _ _ _ Hpre) as (lines & _ & _ & _ & _ & Htr0 & He0 & _).
  destruct (runner_run_spec lib sys input_txt_file feature_dir params w w0 start_time data
              Hpre)
    as (w' & new & Hrun & Htr & _ & _ & He & Hs & _).
  exists w', (EvBar (length data) :: new ++ [EvFinish]).
  split; [done|]. rewrite Htr, Htr0, <- app_assoc, He, He0.
  split; [done|]. split; [apply failures_sublist|]. split; [done|].
  simpl. rewrite saved_app, length_app. simpl. lia.
Qed.

Lemma runner_step_log input_txt_file feature_dir params song w :
  w_log (fst (runner_step lib sys input_txt_file feature_dir params song w))
  = w_log w ++ map skip_record
                 (failures lib sys input_txt_file feature_dir params [song] w).
Proof.
  unfold runner_step. simpl failures. rewrite app_nil_r.
  rewrite bind_eq. unfold try_except.
  destruct (extract_and_save_spec lib sys feature_dir params song w)
    as (w1 & r & new & Hrun & _ & _ & Hlog & _).
  rewrite Hrun. simpl snd. destruct r as [e|[]]; simpl.
  - by rewrite Hlog.
  - by rewrite Hlog, app_nil_r.
Qed.

Lemma runner_loop_log input_txt_file feature_dir params (data : list string) :
  ∀ w,
    w_log (fst (for_each data (runner_step lib sys input_txt_file feature_dir params) w))
    = w_log w ++ map skip_record
                   (failures lib sys input_txt_file feature_dir params data w).
Proof.
  induction data as [|song rest IH]; intros w.
  - simpl. by rewrite app_nil_r.
  - simpl for_each. rewrite bind_eq.
    pose proof (runner_step_log input_txt_file feature_dir params song w) as Hstep.
    destruct (runner_step_spec lib sys input_txt_file feature_dir params song w)
      as (w1 & new & Hrun & _).
    rewrite Hrun in Hstep |- *. simpl in Hstep. rewrite IH, Hstep.
    simpl failures. rewrite Hrun. simpl fst.
    rewrite app_nil_r, map_app, app_assoc. done.
Qed.

(** The log of a run that gets past the emptiness check: the opening
    line, one skip line for every failed path, in order, and the summary
    line; nothing else. *)
Theorem runner_log_lines input_txt_file feature_dir params w w0 (start_time : Q)
    (data : list string) :
  runner_prelude sys input_txt_file w = (w0, inr (start_time, data)) →
  w_log (fst (compute_features_from_list_file lib sys input_txt_file feature_dir params w))
  = w_log w
    ++ [(INFO, Text ("Extracting features for " +:+ input_txt_file +:+ " "))]
    ++ map skip_record (failures lib sys input_txt_file feature_dir params data w0)
    ++ [(INFO, ProcessFinished (start_time - time_time sys (w_tick w0))%Q)].
Proof.
  intros Hpre.
  assert (Hlog0 : w_log w0
    = w_log w ++ [(INFO, Text ("Extracting features for " +:+ input_txt_file +:+ " "))]).
  { revert Hpre. rewrite runner_prelude_eq. cbv zeta.
    destruct (read_txt_file sys (w_fs w) input_txt_file) as [e|lines]; [done|].
    destruct (length (List.filter (os_path_exists sys (w_fs w)) lines) <? 1)%nat; [done|].
    by intros [= <- _ _]. }
  unfold compute_features_from_list_file. rewrite bind_eq, Hpre. cbn [fst snd].
  rewrite bind_eq.
  pose proof (runner_loop_log input_txt_file feature_dir params data w0) as Hloop.
  destruct (runner_loop_spec lib sys input_txt_file feature_dir params data w0)
    as (w1 & new & Hrun & _ & Htick & _).
  rewrite Hrun in Hloop |- *. simpl in Hloop.
  rewrite runner_finish_eq. simpl. rewrite Hloop, Hlog0, Htick, <- !app_assoc. done.
Qed.

(** A manifest that cannot be read stops the runner with the reader's
    exception: the opening line is logged, nothing is processed and
    nothing is recorded in [_ERRORS]. *)
Theorem unreadable_manifest_propagates input_txt_file feature_dir params w (e : exn) :
  read_txt_file sys (w_fs w) input_txt_file = inl e →
  compute_features_from_list_file lib sys input_txt_file feature_dir params w
  = (mkWorld (w_fs w) (w_errors w)
             (w_log w ++ [(INFO, Text ("Extracting features for " +:+ input_txt_file
                                       +:+ " "))])
             (w_trace w) (S (w_tick w)),
     inl e).
Proof.
  intros Hread. unfold compute_features_from_list_file.
  by rewrite bind_eq, runner_prelude_eq, Hread.
Qed.

End RunnerMore.

(** ** The turns of a run *)

Section RunnerTurns.

Context {FS sample value : Type}.
Variable lib : FeatureLib FS sample value.
Variable sys : Platform FS value.

Implicit Types (w : World FS sample value) (params : Profile).

Lemma feature_calls_of_features (af : AudioFeatures sample) (names : list string) :
  feature_calls (map (fun m => @EvFeature sample value m af) names) = names.
Proof. induction names as [|m names IH]; [done|]. simpl. by rewrite IH. Qed.

(** What [compute_features] leaves in the trace after the decoding, and
    what a mapping it returns holds. *)
Lemma compute_features_account audio_path params w :
  ∃ new r,
    compute_features lib audio_path params w
    = (with_trace w (EvLoad audio_path (sample_rate params) :: new), r)
    ∧ loads new = [] ∧ nexts new = [] ∧ artifacts new = []
    ∧ ∀ d, r = inr d →
        feature_calls new = features params
        ∧ dom d = list_to_set (features params) ∪ {["track_id"; "label"]}
        ∧ ∃ clique, PyStr.index_from_end (PyStr.split audio_path) 2 = Some clique.
Proof.
  destruct (extract_listed_shape lib audio_path params w)
    as (trim & res & af & done & r0 & Hrun & Htrim & Hres & _ & _ & Hok).
  rewrite compute_features_eq, Hrun.
  destruct (feature_events_quiet (value:=value) af done) as (Hl & _ & Hn).
  destruct (feature_events_no_files (value:=value) af done) as [Ha _].
  exists (trim ++ res ++ map (fun m => EvFeature m af) done).
  eexists (match r0 with inl e => inl e | inr d => _ end).
  split; [destruct r0; reflexivity|].
  split; [|split; [|split; [|]]].
  - rewrite !loads_app, Hl.
    by destruct Htrim as [->|(t & _ & ->)], Hres as [->|(q & _ & ->)].
  - rewrite !nexts_app, Hn.
    by destruct Htrim as [->|(t & _ & ->)], Hres as [->|(q & _ & ->)].
  - rewrite !artifacts_app, Ha.
    by destruct Htrim as [->|(t & _ & ->)], Hres as [->|(q & _ & ->)].
  - intros d Hd. destruct r0 as [e|d0]; [done|].
    destruct (Hok d0 eq_refl) as (-> & Hdom & _).
    destruct (PyStr.index_from_end (PyStr.split audio_path) 2) as [clique|]; [|done].
    injection Hd as <-. split; [|split].
    + rewrite !feature_calls_app, feature_calls_of_features.
      by destruct Htrim as [->|(t & _ & ->)], Hres as [->|(q & _ & ->)].
    + rewrite !dom_insert_L, Hdom. set_solver.
    + by exists clique.
Qed.

(** One turn of the loop never raises, and is a turn as [turn_account]
    describes it. *)
Lemma runner_step_account input_txt_file feature_dir params song w :
  ∃ w',
    runner_step lib sys input_txt_file feature_dir params song w = (w', inr tt)
    ∧ turn_account lib sys input_txt_file feature_dir params song w w'.
Proof.
  destruct (compute_features_account song params w)
    as (new & r0 & Hcf & Hl & Hn & Ha & Hok).
  assert (Hres : snd (compute_features lib song params w) = r0) by by rewrite Hcf.
  unfold runner_step, extract_and_save.
  rewrite bind_eq. unfold try_except. rewrite bind_eq, Hcf.
  destruct r0 as [e|d].
  { unfold record_failure, bind, errors_append, log_record, emit. cbn.
    eexists. split; [reflexivity|]. exists new. cbn.
    split; [by rewrite <- app_assoc|]. split; [done|]. split; [done|].
    right. split; [done|]. split; [by rewrite <- app_assoc|]. left. by exists e. }
  destruct (Hok d eq_refl) as (Hcalls & Hdom & clique & Hidx).
  rewrite bind_eq. unfold lift at 1. rewrite Hidx. simpl from_option. cbv beta iota.
  rewrite bind_eq. unfold read_fs at 1. cbv beta iota.
  change (w_fs (with_trace w (EvLoad song (sample_rate params) :: new))) with (w_fs w).
  set (work_dir := feature_dir +:+ clique +:+ "/").
  set (target := artifact_path feature_dir clique
                   (PyStr.replace (PyStr.basename song) (input_audio_format params) "")).
  change (work_dir +:+ PyStr.replace (PyStr.basename song) (input_audio_format params) ""
          +:+ ".h5") with target.
  assert (Hens : ensure_dir sys (w_fs w) work_dir
                 = if os_path_exists sys (w_fs w) work_dir then (w_fs w, inr tt)
                   else os_makedirs sys (w_fs w) work_dir) by done.
  destruct (os_path_exists sys (w_fs w) work_dir) eqn:Hex; cbn [negb].
  - (* the directory is there *)
    rewrite bind_eq. unfold ret at 1. rewrite bind_eq. unfold on_fs at 1. cbn.
    destruct (dd_io_save sys (w_fs w) target d) as [fs2 [e|[]]] eqn:Hsave.
    + unfold record_failure, bind, errors_append, log_record, emit. cbn.
      eexists. split; [reflexivity|]. exists new. cbn.
      split; [by rewrite <- app_assoc|]. split; [done|]. split; [done|].
      right. split; [done|]. split; [by rewrite <- app_assoc|].
      right. exists d, clique. split; [done|]. split; [done|].
      right. by exists (w_fs w), e.
    + unfold emit, bind. cbn.
      eexists. split; [reflexivity|]. exists (new ++ [EvSaved target d]). cbn.
      split; [by rewrite <- !app_assoc|].
      split; [by rewrite loads_app, Hl|]. split; [by rewrite nexts_app, Hn|].
      left. exists d, clique, (w_fs w).
      rewrite feature_calls_app, artifacts_app, Ha, Hcalls. cbn.
      rewrite app_nil_r. done.
  - (* the directory is made *)
    rewrite bind_eq. rewrite bind_eq, emit_with_trace. unfold on_fs at 1. cbn.
    destruct (os_makedirs sys (w_fs w) work_dir) as [fs1 [e|[]]] eqn:Hmk.
    + unfold record_failure, bind, errors_append, log_record, emit. cbn.
      eexists. split; [reflexivity|]. exists (new ++ [EvMakedirs work_dir]). cbn.
      split; [by rewrite <- !app_assoc|].
      split; [by rewrite loads_app, Hl|]. split; [by rewrite nexts_app, Hn|].
      right. split; [by rewrite artifacts_app, Ha|]. split; [by rewrite <- app_assoc|].
      right. exists d, clique. split; [done|]. split; [done|]. left. by exists e.
    + rewrite bind_eq. unfold on_fs at 1. cbn.
      destruct (dd_io_save sys fs1 target d) as [fs2 [e|[]]] eqn:Hsave.
      * unfold record_failure, bind, errors_append, log_record, emit. cbn.
        eexists. split; [reflexivity|]. exists (new ++ [EvMakedirs work_dir]). cbn.
        split; [by rewrite <- !app_assoc|].
        split; [by rewrite loads_app, Hl|]. split; [by rewrite nexts_app, Hn|].
        right. split; [by rewrite artifacts_app, Ha|]. split; [by rewrite <- app_assoc|].
        right. exists d, clique. split; [done|]. split; [done|].
        right. by exists fs1, e.
      * unfold emit, bind. cbn.
        eexists. split; [reflexivity|].
        exists (new ++ [EvMakedirs work_dir] ++ [EvSaved target d]). cbn.
        split; [by rewrite <- !app_assoc|].
        split; [by rewrite !loads_app, Hl|]. split; [by rewrite !nexts_app, Hn|].
        left. exists d, clique, fs1.
        rewrite !feature_calls_app, !artifacts_app, Ha, Hcalls. cbn.
        rewrite app_nil_r. done.
Qed.

(** The loop over [data] returns, turn by turn. *)
Lemma runner_loop_account input_txt_file feature_dir params (data : list string) :
  ∀ w, ∃ w',
    for_each data (runner_step lib sys input_txt_file feature_dir params) w = (w', inr tt)
    ∧ loop_account lib sys input_txt_file feature_dir params data w w'.
Proof.
  induction data as [|song rest IH]; intros w.
  - by exists w.
  - simpl for_each. rewrite bind_eq.
    destruct (runner_step_account input_txt_file feature_dir params song w)
      as (w1 & -> & Hturn).
    destruct (IH w1) as (w2 & Hrun2 & Hloop).
    exists w2. split; [exact Hrun2|]. by exists w1.
Qed.

(** What the turns leave behind, counted: the songs decoded are [data],
    the bar advanced once per song, and every song was stored or added
    two elements to [_ERRORS]. *)
Lemma loop_account_counts input_txt_file feature_dir params (data : list string) :
  ∀ w0 w1,
    loop_account lib sys input_txt_file feature_dir params data w0 w1 →
    ∃ new,
      w_trace w1 = w_trace w0 ++ new
      ∧ loads new = data
      ∧ length (nexts new) = length data
      ∧ (length (w_errors w1) + 2 * length (artifacts new)
         = length (w_errors w0) + 2 * length data)%nat.
Proof.
  induction data as [|song rest IH]; intros w0 w2.
  - intros ->. exists []. by rewrite app_nil_r.
  - intros (w1 & (mid & Htr & Hl & Hn & Hcase) & Hrest).
    destruct (IH w1 w2 Hrest) as (new & Htr2 & Hl2 & Hn2 & Hcount).
    exists ([EvLoad song (sample_rate params)] ++ mid ++ [EvNext] ++ new).
    split.
    { rewrite Htr2, Htr. cbn. rewrite <- !app_assoc. cbn. by rewrite <- app_assoc. }
    rewrite !loads_app, !nexts_app, !artifacts_app, Hl, Hn, Hl2. cbn.
    split; [done|]. split; [by rewrite Hn2|].
    rewrite !length_app. cbn.
    destruct Hcase as [(d & clique & fs1 & _ & _ & _ & _ & _ & _ & -> & Herr)
                      |(-> & Herr & _)].
    + cbn. rewrite Herr in Hcount. lia.
    + cbn. rewrite Herr, length_app in Hcount. cbn in Hcount. lia.
Qed.

(** C8, as the code has it: for a manifest with at least one existing
    path the runner returns, whatever the number of missing paths, and
    takes exactly the existing paths, in manifest order, one turn each.
    A turn decodes its path, then either computes every listed feature
    and saves the mapping [compute_features] returned under the path's
    clique and track id, or, when that raised, adds the manifest and the
    path to [_ERRORS], and last advances the progress bar.  So the paths
    decoded are the existing ones in order, the bar advances once for
    each, and each is stored or recorded.  With no existing path the
    runner raises instead (C9). *)
Theorem runner_processes_existing_in_order input_txt_file feature_dir params w
    (lines : list string) :
  read_txt_file sys (w_fs w) input_txt_file = inr lines →
  List.filter (os_path_exists sys (w_fs w)) lines ≠ [] →
  ∃ w0 w1 w' new,
    compute_features_from_list_file lib sys input_txt_file feature_dir params w
    = (w', inr tt)
    ∧ w_fs w0 = w_fs w ∧ w_errors w0 = w_errors w
    ∧ w_trace w0
      = w_trace w ++ [EvBar (length (List.filter (os_path_exists sys (w_fs w)) lines))]
    ∧ loop_account lib sys input_txt_file feature_dir params
        (List.filter (os_path_exists sys (w_fs w)) lines) w0 w1
    ∧ w_fs w' = w_fs w1 ∧ w_errors w' = w_errors w1
    ∧ w_trace w' = w_trace w1 ++ [EvFinish]
    ∧ w_trace w'
      = w_trace w
        ++ EvBar (length (List.filter (os_path_exists sys (w_fs w)) lines))
           :: new ++ [EvFinish]
    ∧ loads new = List.filter (os_path_exists sys (w_fs w)) lines
    ∧ length (nexts new) = length (List.filter (os_path_exists sys (w_fs w)) lines)
    ∧ (length (w_errors w') + 2 * length (artifacts new)
       = length (w_errors w)
         + 2 * length (List.filter (os_path_exists sys (w_fs w)) lines))%nat.
Proof.
  intros Hread Hsome.
  set (data := List.filter (os_path_exists sys (w_fs w)) lines) in *.
  unfold compute_features_from_list_file.
  rewrite bind_eq, runner_prelude_eq, Hread. cbv zeta. fold data.
  destruct (length data <? 1)%nat eqn:Hlen.
  { destruct data; [done|]. simpl in Hlen. done. }
  cbn [fst snd]. rewrite bind_eq.
  match goal with
  | |- context [for_each data ?body ?w0] =>
      destruct (runner_loop_account input_txt_file feature_dir params data w0)
        as (w1 & Hrun & Hloop);
      destruct (loop_account_counts input_txt_file feature_dir params data w0 w1 Hloop)
        as (new & Htr & Hl & Hn & Hcount);
      exists w0
  end.
  rewrite Hrun, runner_finish_eq.
  eexists w1, _, new. split; [reflexivity|]. cbn in *.
  rewrite Htr, <- !app_assoc. done.
Qed.

End RunnerTurns.

(** C8 on [list.txt]: four lines, three of which exist. *)
Lemma runner_processes_existing_in_order_demo :
  (read_txt_file Demo.sys (w_fs Demo.boot) "list.txt"
   = inr ["audio_dir/cliqueA/song1.mp3"; "audio_dir/cliqueZ/gone.mp3";
          "audio_dir/cliqueA/song2.mp3"; "audio_dir/cliqueB/song3.mp3"]
   ∧ List.filter (os_path_exists Demo.sys (w_fs Demo.boot))
       ["audio_dir/cliqueA/song1.mp3"; "audio_dir/cliqueZ/gone.mp3";
        "audio_dir/cliqueA/song2.mp3"; "audio_dir/cliqueB/song3.mp3"]
     = ["audio_dir/cliqueA/song1.mp3"; "audio_dir/cliqueA/song2.mp3";
        "audio_dir/cliqueB/song3.mp3"])
  ∧ ∃ w0 w1 w' new,
      compute_features_from_list_file Demo.lib Demo.sys "list.txt" "out/" PROFILE Demo.boot
      = (w', inr tt)
      ∧ w_fs w0 = w_fs Demo.boot ∧ w_errors w0 = w_errors Demo.boot
      ∧ w_trace w0 = w_trace Demo.boot ++ [EvBar 3]
      ∧ loop_account Demo.lib Demo.sys "list.txt" "out/" PROFILE
          ["audio_dir/cliqueA/song1.mp3"; "audio_dir/cliqueA/song2.mp3";
           "audio_dir/cliqueB/song3.mp3"] w0 w1
      ∧ w_fs w' = w_fs w1 ∧ w_errors w' = w_errors w1
      ∧ w_trace w' = w_trace w1 ++ [EvFinish]
      ∧ w_trace w' = w_trace Demo.boot ++ EvBar 3 :: new ++ [EvFinish]
      ∧ loads new
        = ["audio_dir/cliqueA/song1.mp3"; "audio_dir/cliqueA/song2.mp3";
           "audio_dir/cliqueB/song3.mp3"]
      ∧ length (nexts new) = 3%nat
      ∧ (length (w_errors w') + 2 * length (artifacts new)
         = length (w_errors Demo.boot) + 2 * 3)%nat.
Proof.
  split; [split; reflexivity|].
  apply (runner_processes_existing_in_order Demo.lib Demo.sys "list.txt" "out/" PROFILE
           Demo.boot
           ["audio_dir/cliqueA/song1.mp3"; "audio_dir/cliqueZ/gone.mp3";
            "audio_dir/cliqueA/song2.mp3"; "audio_dir/cliqueB/song3.mp3"]).
  - reflexivity.
  - discriminate.
Defined.

(** C8 as stated fails when every line is missing: [gone.txt] has no
    existing path and one missing path, and the runner raises. *)
Lemma runner_raises_when_every_line_is_missing :
  read_txt_file Demo.sys (w_fs Demo.boot) "gone.txt" = inr ["audio_dir/cliqueZ/gone.mp3"]
  ∧ os_path_exists Demo.sys (w_fs Demo.boot) "audio_dir/cliqueZ/gone.mp3" = false
  ∧ snd (compute_features_from_list_file Demo.lib Demo.sys "gone.txt" "out/" PROFILE
           Demo.boot)
    = inl (IOError "Empty collection txt file -gone.txt- !")
  ∧ snd (compute_features_from_list_file Demo.lib Demo.sys "gone.txt" "out/" PROFILE
           Demo.boot)
    ≠ inr tt.
Proof.
  split; [reflexivity|]. split; [reflexivity|].
  split; [vm_compute; reflexivity|]. vm_compute. discriminate.
Qed.

(** ** The orchestrator's errors and the lines of its manifest *)

Section BatchMore.

Context {FS sample value : Type}.
Variable lib : FeatureLib FS sample value.
Variable sys : Platform FS value.
Variable joblib_Parallel : Z → list (M FS sample value unit) → M FS sample value unit.

Implicit Types (w : World FS sample value).


End BatchMore.

Lemma startswith_slash_false (b : string) :
  PyStr.contains_slash b = false → PyStr.startswith b "/" = false.
Proof.
  destruct b as [|c b]; [done|]. intros H.
  change (PyStr.contains_slash (String c b))
    with (Ascii.eqb c PyStr.slash || PyStr.contains_slash b) in H.
  apply orb_false_elim in H as [H _].
  change (PyStr.startswith (String c b) "/")
    with (Ascii.eqb PyStr.slash c && PyStr.startswith b "").
  by rewrite Ascii.eqb_sym, H.
Qed.

Lemma contains_slash_drop (s : string) :
  PyStr.contains_slash s = false → ∀ n, PyStr.contains_slash (PyStr.drop n s) = false.
Proof.
  induction s as [|c s IH]; intros H n; destruct n as [|n]; try done.
  simpl in *. apply orb_false_elim in H as [_ H]. by apply IH.
Qed.

Lemma drop_app_ge (a b : string) (n : nat) :
  PyStr.drop (String.length a + n) (a +:+ b) = PyStr.drop n b.
Proof. induction a as [|c a IH]; [done|]. exact IH. Qed.

Lemma endswith_slash_false (a clique : string) :
  clique ≠ "" → PyStr.contains_slash clique = false →
  PyStr.endswith (a +:+ clique) "/" = false.
Proof.
  intros Hne Hc. unfold PyStr.endswith. apply andb_false_iff. right.
  apply String.eqb_neq. intros Hlast.
  rewrite length_app_string in Hlast.
  replace (String.length a + String.length clique - String.length "/")%nat
    with (String.length a + (String.length clique - 1))%nat in Hlast.
  2: { destruct clique; [done|]. simpl. lia. }
  rewrite drop_app_ge in Hlast.
  pose proof (contains_slash_drop clique Hc (String.length clique - 1)) as Hno.
  by rewrite Hlast in Hno.
Qed.

(** An [.mp3] file that the walk finds in a directory named [clique] gets
    a line in the manifest, and for the path on that line the extractor's
    label is [clique] and the basename is the file's name: the manifest
    the orchestrator writes fits the layout the extractor expects. *)
Theorem walked_file_gets_directory_as_label (path clique name : string)
    (subdirs files : list string) :
  clique ≠ "" →
  PyStr.contains_slash clique = false →
  PyStr.contains_slash name = false →
  (path = clique ∨ ∃ root, path = root +:+ String PyStr.slash clique) →
  name ∈ files →
  PyStr.endswith name ".mp3" = true →
  (PyStr.join path name +:+ PyStr.newline) ∈ manifest_lines (path, subdirs, files)
  ∧ PyStr.join path name = path +:+ String PyStr.slash name
  ∧ PyStr.index_from_end (PyStr.split (PyStr.join path name)) 2 = Some clique
  ∧ PyStr.basename (PyStr.join path name) = name.
Proof.
  intros Hne Hc Hn Hpath Hin Hmp3.
  assert (Hjoin : PyStr.join path name = path +:+ String PyStr.slash name).
  { unfold PyStr.join. rewrite (startswith_slash_false _ Hn).
    assert (Hend : PyStr.endswith path "/" = false).
    { destruct Hpath as [->|[root ->]].
      - by apply (endswith_slash_false "").
      - replace (root +:+ String PyStr.slash clique)
          with ((root +:+ String PyStr.slash "") +:+ clique)
          by apply app_string_assoc.
        by apply endswith_slash_false. }
    assert (Hnonempty : String.eqb path "" = false).
    { apply String.eqb_neq. destruct Hpath as [->|[root ->]]; [done|].
      by destruct root. }
    by rewrite Hend, Hnonempty. }
  split; [|split; [done|split]].
  - unfold manifest_lines. apply list_elem_of_In, in_map_iff.
    exists name. split; [done|]. apply filter_In. split; [by apply list_elem_of_In|done].
  - rewrite Hjoin. destruct (label_of_clique_path clique name Hc Hn) as [Hone Hmore].
    destruct Hpath as [->|[root ->]]; [done|].
    rewrite app_string_assoc. apply Hmore.
  - rewrite Hjoin. by apply basename_app_slash.
Qed.

(** ** The command line *)

(** The parsed arguments have exactly the six attributes named after the
    long options, whereas the main block reads [p], [f], [a] and [n]: each
    of these reads raises [AttributeError], the first of them at line 174,
    before any directory is made or any extraction started. *)
Theorem cli_reads_missing_attributes (given : gmap string string) :
  dom (Cli.parse_args given)
  = list_to_set ["dataset_csv"; "audio_dir"; "feature_dir"; "feature_list";
                 "run_mode"; "workers"]
  ∧ Forall (fun name => Cli.getattr (Cli.parse_args given) name = inl (AttributeError name))
      Cli.attributes_read.
Proof.
  assert (Hdom : dom (Cli.parse_args given)
                 =@{gset string}
                 list_to_set ["dataset_csv"; "audio_dir"; "feature_dir"; "feature_list";
                              "run_mode"; "workers"]).
  { unfold Cli.parse_args. rewrite dom_list_to_map_L. f_equal. }
  split; [exact Hdom|].
  assert (Hmiss : ∀ name,
    name ∉ (list_to_set ["dataset_csv"; "audio_dir"; "feature_dir"; "feature_list";
                         "run_mode"; "workers"] : gset string) →
    Cli.getattr (Cli.parse_args given) name = inl (AttributeError name)).
  { intros name Hname. unfold Cli.getattr.
    rewrite <- Hdom in Hname. apply not_elem_of_dom in Hname. by rewrite Hname. }
  unfold Cli.attributes_read.
  repeat (apply Forall_cons; split; [apply Hmiss; set_solver|]). apply Forall_nil_2.
Qed.

(** ** The further properties on concrete inputs *)

Lemma unknown_feature_stops_loop_demo :
  capability Demo.lib "crema" = None
  ∧ compute_listed Demo.lib Cases.song1 (["hpcp"] ++ "crema" :: ["mfcc_htk"]) ∅ Demo.boot
    = (with_trace Demo.boot (map (fun x => EvFeature x Cases.song1) ["hpcp"]),
       inl (AttributeError "crema")).
Proof.
  split; [reflexivity|].
  apply (unknown_feature_stops_loop Demo.lib Cases.song1 ["hpcp"] ["mfcc_htk"] "crema").
  - intros x Hx. apply list_elem_of_singleton in Hx as ->.
    eexists _, _. split; reflexivity.
  - reflexivity.
Defined.

Lemma raising_feature_stops_loop_demo :
  compute_listed Cases.lib Cases.song1 (["hpcp"] ++ "crema" :: ["mfcc_htk"]) ∅ Demo.boot
  = (with_trace Demo.boot (map (fun x => EvFeature x Cases.song1) (["hpcp"] ++ ["crema"])),
     inl (External "model file not found")).
Proof.
  apply (raising_feature_stops_loop Cases.lib Cases.song1 ["hpcp"] ["mfcc_htk"] "crema"
           (fun _ => inl (External "model file not found"))).
  - intros x Hx. apply list_elem_of_singleton in Hx as ->.
    eexists _, _. split; reflexivity.
  - reflexivity.
  - reflexivity.
Defined.

Lemma compute_features_values_demo :
  ∃ d af,
    snd (compute_features Demo.lib "audio_dir/cliqueA/song1.mp3" PROFILE Demo.boot) = inr d
    ∧ audio_file af = "audio_dir/cliqueA/song1.mp3" ∧ fs af = sample_rate PROFILE
    ∧ ∀ m, m ∈ features PROFILE → m ≠ "track_id" → m ≠ "label" →
        ∃ f v, capability Demo.lib m = Some f ∧ f af = inr v ∧ d !! m = Some (VFeat v).
Proof.
  destruct (compute_features Demo.lib "audio_dir/cliqueA/song1.mp3" PROFILE Demo.boot)
    as [w' [e|d]] eqn:Hrun; [vm_compute in Hrun; discriminate|].
  destruct (compute_features_values Demo.lib _ _ _ _ _ Hrun) as (af & Hfile & Hfs & Hval).
  by exists d, af.
Defined.

Lemma features_on_decoded_signal_demo :
  ∃ done r,
    compute_features Demo.lib "audio_dir/cliqueA/song1.mp3" PROFILE Demo.boot
    = (with_trace Demo.boot
         (EvLoad "audio_dir/cliqueA/song1.mp3" (sample_rate PROFILE)
          :: map (fun m => EvFeature m (mkAudioFeatures "audio_dir/cliqueA/song1.mp3"
                                          (sample_rate PROFILE) [3; 2; 1])) done), r)
    ∧ done `prefix_of` features PROFILE
    ∧ (∀ d, r = inr d → done = features PROFILE).
Proof.
  apply (features_on_decoded_signal Demo.lib "audio_dir/cliqueA/song1.mp3" PROFILE Demo.boot
           [3; 2; 1]); reflexivity.
Defined.

Lemma zero_downsample_factor_raises_demo :
  compute_features Demo.lib "audio_dir/cliqueA/song1.mp3" Cases.zero_factor Demo.boot
  = (with_trace Demo.boot [EvLoad "audio_dir/cliqueA/song1.mp3" 44100],
     inl ZeroDivisionError).
Proof.
  apply (proj2 (zero_downsample_factor_raises Demo.lib "audio_dir/cliqueA/song1.mp3"
                  Cases.zero_factor Demo.boot eq_refl eq_refl) [3; 2; 1]).
  - reflexivity.
  - discriminate.
  - reflexivity.
Defined.

Lemma zero_endtime_is_no_trim_demo :
  compute_features Demo.lib "audio_dir/cliqueA/song1.mp3" Cases.zero_endtime Demo.boot
  = compute_features Demo.lib "audio_dir/cliqueA/song1.mp3"
      (with_endtime Cases.zero_endtime None) Demo.boot.
Proof.
  apply (zero_endtime_is_no_trim Demo.lib "audio_dir/cliqueA/song1.mp3" Cases.zero_endtime
           0%Q Demo.boot); reflexivity.
Defined.

Lemma reserved_keys_of_clique_path_demo :
  ∃ d, snd (compute_features Demo.lib "audio_dir/cliqueA/song1.mp3" PROFILE Demo.boot) = inr d
       ∧ d !! "track_id" = Some (VStr "song1") ∧ d !! "label" = Some (VStr "cliqueA").
Proof.
  destruct (compute_features Demo.lib "audio_dir/cliqueA/song1.mp3" PROFILE Demo.boot)
    as [w' [e|d]] eqn:Hrun; [vm_compute in Hrun; discriminate|].
  exists d. split; [done|].
  apply (reserved_keys_of_clique_path Demo.lib "audio_dir" "cliqueA" "song1" PROFILE
           Demo.boot w' d); try reflexivity.
  - discriminate.
  - intros i Hi. do 5 (destruct i as [|i]; [reflexivity|]). simpl in Hi. lia.
  - exact Hrun.
Defined.

Lemma bare_filename_in_manifest_is_skipped_demo :
  PyStr.contains_slash "song4.mp3" = false
  ∧ ∃ w' new,
      runner_step Demo.lib Demo.sys "list.txt" "out/" PROFILE "song4.mp3" Demo.boot
      = (w', inr tt)
      ∧ w_errors w' = w_errors Demo.boot ++ ["list.txt"; "song4.mp3"]
      ∧ w_log w' = w_log Demo.boot ++ [skip_record "song4.mp3"]
      ∧ w_trace w' = w_trace Demo.boot ++ new
      ∧ artifacts new = [] ∧ makedirs_calls new = [].
Proof.
  split; [reflexivity|].
  apply (bare_filename_in_manifest_is_skipped Demo.lib Demo.sys "list.txt" "out/" PROFILE
           "song4.mp3" Demo.boot).
  reflexivity.
Defined.

Lemma empty_recording_in_manifest_is_skipped_demo :
  decode Demo.lib (w_fs Demo.boot) "audio_dir/cliqueA/song2.mp3" (sample_rate PROFILE) = inr []
  ∧ ∃ w' new,
      runner_step Demo.lib Demo.sys "list.txt" "out/" PROFILE "audio_dir/cliqueA/song2.mp3"
        Demo.boot = (w', inr tt)
      ∧ w_errors w' = w_errors Demo.boot ++ ["list.txt"; "audio_dir/cliqueA/song2.mp3"]
      ∧ w_log w' = w_log Demo.boot ++ [skip_record "audio_dir/cliqueA/song2.mp3"]
      ∧ w_trace w' = w_trace Demo.boot ++ new
      ∧ artifacts new = [] ∧ makedirs_calls new = []
      ∧ feature_calls new = [].
Proof.
  split; [reflexivity|].
  apply (empty_recording_in_manifest_is_skipped Demo.lib Demo.sys "list.txt" "out/" PROFILE
           "audio_dir/cliqueA/song2.mp3" Demo.boot).
  reflexivity.
Defined.

Lemma runner_error_accounting_demo :
  ∃ w' new,
    compute_features_from_list_file Demo.lib Demo.sys "list.txt" "out/" PROFILE Demo.boot
    = (w', inr tt)
    ∧ w_trace w' = w_trace Demo.boot ++ new
    ∧ failures Demo.lib Demo.sys "list.txt" "out/" PROFILE
        ["audio_dir/cliqueA/song1.mp3"; "audio_dir/cliqueA/song2.mp3";
         "audio_dir/cliqueB/song3.mp3"]
        (fst (runner_prelude Demo.sys "list.txt" Demo.boot))
      `sublist_of` ["audio_dir/cliqueA/song1.mp3"; "audio_dir/cliqueA/song2.mp3";
                    "audio_dir/cliqueB/song3.mp3"]
    ∧ w_errors w'
      = w_errors Demo.boot
        ++ flat_map (fun song => ["list.txt"; song])
             (failures Demo.lib Demo.sys "list.txt" "out/" PROFILE
                ["audio_dir/cliqueA/song1.mp3"; "audio_dir/cliqueA/song2.mp3";
                 "audio_dir/cliqueB/song3.mp3"]
                (fst (runner_prelude Demo.sys "list.txt" Demo.boot)))
    ∧ (length (saved new)
       + length (failures Demo.lib Demo.sys "list.txt" "out/" PROFILE
                   ["audio_dir/cliqueA/song1.mp3"; "audio_dir/cliqueA/song2.mp3";
                    "audio_dir/cliqueB/song3.mp3"]
                   (fst (runner_prelude Demo.sys "list.txt" Demo.boot)))
       = 3)%nat.
Proof.
  apply (runner_error_accounting Demo.lib Demo.sys "list.txt" "out/" PROFILE Demo.boot
           (fst (runner_prelude Demo.sys "list.txt" Demo.boot)) (inject_Z 100)
           ["audio_dir/cliqueA/song1.mp3"; "audio_dir/cliqueA/song2.mp3";
            "audio_dir/cliqueB/song3.mp3"]).
  vm_compute. reflexivity.
Defined.

Lemma runner_log_lines_demo :
  w_log (fst (compute_features_from_list_file Demo.lib Demo.sys "list.txt" "out/" PROFILE
                Demo.boot))
  = w_log Demo.boot
    ++ [(INFO, Text "Extracting features for list.txt ")]
    ++ map skip_record
         (failures Demo.lib Demo.sys "list.txt" "out/" PROFILE
            ["audio_dir/cliqueA/song1.mp3"; "audio_dir/cliqueA/song2.mp3";
             "audio_dir/cliqueB/song3.mp3"]
            (fst (runner_prelude Demo.sys "list.txt" Demo.boot)))
    ++ [(INFO, ProcessFinished
                 (inject_Z 100
                  - time_time Demo.sys
                      (w_tick (fst (runner_prelude Demo.sys "list.txt" Demo.boot))))%Q)].
Proof.
  apply (runner_log_lines Demo.lib Demo.sys "list.txt" "out/" PROFILE Demo.boot
           (fst (runner_prelude Demo.sys "list.txt" Demo.boot)) (inject_Z 100)
           ["audio_dir/cliqueA/song1.mp3"; "audio_dir/cliqueA/song2.mp3";
            "audio_dir/cliqueB/song3.mp3"]).
  vm_compute. reflexivity.
Defined.

Lemma unreadable_manifest_propagates_demo :
  read_txt_file Demo.sys (w_fs Demo.boot) "nowhere.txt" = inl (External "FileNotFoundError")
  ∧ compute_features_from_list_file Demo.lib Demo.sys "nowhere.txt" "out/" PROFILE Demo.boot
    = (mkWorld (w_fs Demo.boot) (w_errors Demo.boot)
               (w_log Demo.boot ++ [(INFO, Text "Extracting features for nowhere.txt ")])
               (w_trace Demo.boot) (S (w_tick Demo.boot)),
       inl (External "FileNotFoundError")).
Proof.
  split; [reflexivity|].
  apply (unreadable_manifest_propagates Demo.lib Demo.sys "nowhere.txt" "out/" PROFILE
           Demo.boot).
  reflexivity.
Defined.


Lemma walked_file_gets_directory_as_label_demo :
  (PyStr.join "audio_dir/cliqueA" "song1.mp3" +:+ PyStr.newline)
    ∈ manifest_lines ("audio_dir/cliqueA", [], ["cover.jpg"; "song1.mp3"])
  ∧ PyStr.join "audio_dir/cliqueA" "song1.mp3"
    = "audio_dir/cliqueA" +:+ String PyStr.slash "song1.mp3"
  ∧ PyStr.index_from_end (PyStr.split (PyStr.join "audio_dir/cliqueA" "song1.mp3")) 2
    = Some "cliqueA"
  ∧ PyStr.basename (PyStr.join "audio_dir/cliqueA" "song1.mp3") = "song1.mp3".
Proof.
  apply (walked_file_gets_directory_as_label "audio_dir/cliqueA" "cliqueA" "song1.mp3" []
           ["cover.jpg"; "song1.mp3"]).
  - discriminate.
  - reflexivity.
  - reflexivity.
  - right. by exists "audio_dir".
  - set_solver.
  - reflexivity.
Defined.
